(** * SpeedTest: the measurement engine, dashboard state and history store

    A shallow embedding of the Python sources [core/units.py],
    [core/history.py], [core/speedtest_engine.py], [ui/gauges.py],
    [ui/analyzer.py] and [ui/cli_dashboard.py].

    Conventions of the embedding:
    - Python [float] values are idealised as rationals [Q]; no claim below
      depends on rounding, infinities or NaN.
    - A Python [dict] with string keys is a [gmap string _].
    - A raised exception is the [Raise] branch of the [res] monad; a
      [try/except] is a handler on [res].
    - The functions of the Python standard library the program calls
      ([datetime.isoformat], [datetime.fromisoformat], [json.dumps],
      [json.loads], [str] on numbers and containers) are fields of the
      [PyRuntime] class; a concrete instance is given at the end of the
      definitions. *)

From Stdlib Require Import Ascii QArith Qround Qminmax.
From stdpp Require Import gmap strings list fin_maps.

Local Open Scope string_scope.
Local Open Scope list_scope.
Local Open Scope Z_scope.

(** ** Python values *)

Module Py.

(** What [json.loads] can produce, and what a [Dict[str, Any]] holds. *)
#[warnings="-register-all"] Inductive pyval :=
| PNone
| PBool (b : bool)
| PNum (q : Q)
| PStr (s : string)
| PList (l : list pyval)
| PDict (d : gmap string pyval).

(** The exception classes the program meets.  [CancelledError] derives
    from [BaseException] and is the only one that is not an [Exception]. *)
Inductive exn :=
| KeyError
| TypeError
| ValueError
| AttributeError
| IndexError
| ZeroDivisionError
| JSONDecodeError
| CancelledError
| WorkloadError (msg : string).

Definition is_Exception (e : exn) : bool :=
  match e with
  | CancelledError => false
  | _ => true
  end.

Inductive res (A : Type) :=
| Ok (a : A)
| Raise (e : exn).
Arguments Ok {A} a.
Arguments Raise {A} e.

#[global] Instance res_ret : MRet res := λ A a, Ok a.
#[global] Instance res_bind : MBind res := λ A B f m,
  match m with
  | Ok a => f a
  | Raise e => Raise e
  end.
#[global] Instance res_fmap : FMap res := λ A B f m,
  match m with
  | Ok a => Ok (f a)
  | Raise e => Raise e
  end.

(** [try: body except Exception: handler] *)
Definition try_except_Exception {A} (body : res A) (handler : A) : res A :=
  match body with
  | Ok a => Ok a
  | Raise e => if is_Exception e then Ok handler else Raise e
  end.

(** [[f(x) for x in l]]: the first exception aborts the comprehension. *)
Fixpoint comprehension {A B} (f : A → res B) (l : list A) : res (list B) :=
  match l with
  | [] => Ok []
  | x :: l' => y ← f x; ys ← comprehension f l'; mret (y :: ys)
  end.

(** Truthiness, as used by [or], [if x:] and [filter(None, _)]. *)
Definition truthy (v : pyval) : bool :=
  match v with
  | PNone => false
  | PBool b => b
  | PNum q => negb (Qeq_bool q 0)
  | PStr s => negb (String.eqb s "")
  | PList l => match l with [] => false | _ => true end
  | PDict d => negb (bool_decide (d = ∅))
  end.

(** [d.get(key)] and [d.get(key, default)] *)
Definition get (d : gmap string pyval) (key : string) : pyval :=
  default PNone (d !! key).
Definition get_or (d : gmap string pyval) (key : string) (dflt : pyval) : pyval :=
  default dflt (d !! key).

(** [l[-n:]] for a positive [n] *)
Definition last_n {A} (n : nat) (l : list A) : list A :=
  drop (length l - n) l.

(** [x / y] on floats *)
Definition div (x y : Q) : res Q :=
  if Qeq_bool y 0 then Raise ZeroDivisionError else Ok (x / y)%Q.

(** [int(x)]: truncation towards zero *)
Definition int (x : Q) : Z := Z.quot (Qnum x) (Z.pos (Qden x)).

End Py.
Import Py.

(** ** The part of the Python standard library the program calls *)

Class PyRuntime := {
  (** [datetime.datetime] with its ISO-8601 printer and parser; the parser
      gives [None] where Python raises [ValueError]. *)
  datetime : Type;
  isoformat : datetime → string;
  fromisoformat : string → option datetime;
  (** The text of a file, [json.dumps] and [json.loads]; the parser gives
      [None] where Python raises [JSONDecodeError]. *)
  text : Type;
  json_dumps : pyval → text;
  json_loads : text → option pyval;
  (** [str(v)] for a [v] that is not a string, [None] or a boolean. *)
  str_other : pyval → string
}.

(** ** core/units.py *)

Module Units.
Section Units.
Context `{RT : PyRuntime}.

(** The dataclass.  Python does not enforce the annotations, and
    [from_dict] stores whatever the dictionary holds, so the seven data
    fields are Python values; an absent optional field is [PNone]. *)
Record SpeedResult := {
  ping_ms : pyval;
  jitter_ms : pyval;
  download_mbps : pyval;
  upload_mbps : pyval;
  packet_loss : pyval;
  server_name : pyval;
  isp : pyval;
  timestamp : datetime
}.

Definition to_dict (self : SpeedResult) : gmap string pyval :=
  list_to_map [
    ("ping_ms", ping_ms self);
    ("jitter_ms", jitter_ms self);
    ("download_mbps", download_mbps self);
    ("upload_mbps", upload_mbps self);
    ("packet_loss", packet_loss self);
    ("server_name", server_name self);
    ("isp", isp self);
    ("timestamp", PStr (isoformat (timestamp self)))
  ].

(** [data["timestamp"]] *)
Definition subscript (data : gmap string pyval) (key : string) : res pyval :=
  match data !! key with
  | Some v => Ok v
  | None => Raise KeyError
  end.

(** [datetime.fromisoformat(v)] on an arbitrary value *)
Definition datetime_fromisoformat (v : pyval) : res datetime :=
  match v with
  | PStr s =>
      match fromisoformat s with
      | Some t => Ok t
      | None => Raise ValueError
      end
  | _ => Raise TypeError
  end.

Definition from_dict (data : gmap string pyval) : res SpeedResult :=
  ts ← subscript data "timestamp";
  t ← datetime_fromisoformat ts;
  mret {|
    ping_ms := get_or data "ping_ms" (PNum 0);
    jitter_ms := get data "jitter_ms";
    download_mbps := get_or data "download_mbps" (PNum 0);
    upload_mbps := get_or data "upload_mbps" (PNum 0);
    packet_loss := get data "packet_loss";
    server_name := get data "server_name";
    isp := get data "isp";
    timestamp := t
  |}.

End Units.
End Units.
Import Units.

(** ** core/history.py *)

Module History.
Section History.
Context `{RT : PyRuntime}.

Definition HISTORY_LIMIT : nat := 10.

(** [for item in data]: a list yields its elements, a dictionary its
    keys, a string its characters; nothing else is iterable. *)
Definition iter (data : pyval) : res (list pyval) :=
  match data with
  | PList l => Ok l
  | PDict d => Ok (PStr <$> (map_to_list d).*1)
  | PStr s => Ok ((λ c, PStr (String c "")) <$> String.list_ascii_of_string s)
  | _ => Raise TypeError
  end.

(** [SpeedResult.from_dict(item)]: the first [item.get] raises
    [AttributeError] on anything that is not a dictionary. *)
Definition from_item (item : pyval) : res SpeedResult :=
  match item with
  | PDict d => from_dict d
  | _ => Raise AttributeError
  end.

Definition loads (txt : text) : res pyval :=
  match json_loads txt with
  | Some v => Ok v
  | None => Raise JSONDecodeError
  end.

(** The state of [HISTORY_FILE] is [None] when the file does not exist
    and [Some txt] when it holds [txt]. *)
Definition load_history (file : option text) : res (list SpeedResult) :=
  match file with
  | None => Ok []
  | Some txt =>
      try_except_Exception
        (data ← loads txt;
         items ← iter data;
         rs ← comprehension from_item items;
         mret (last_n HISTORY_LIMIT rs))
        []
  end.

(** Returns the new state of [HISTORY_FILE]. *)
Definition save_result (result : SpeedResult) (file : option text)
  : res (option text) :=
  history ← load_history file;
  let history := history ++ [result] in
  let trimmed := last_n HISTORY_LIMIT history in
  let payload := PList ((λ entry, PDict (to_dict entry)) <$> trimmed) in
  mret (Some (json_dumps payload)).

(** Appending a sequence of records, one [save_result] after the other. *)
Fixpoint save_all (results : list SpeedResult) (file : option text)
  : res (option text) :=
  match results with
  | [] => Ok file
  | r :: rest => file' ← save_result r file; save_all rest file'
  end.

End History.
End History.
Import History.

(** ** ui/gauges.py: the analyzer sparkline *)

Module Gauges.

(** A Python [str] of glyphs is a list of Unicode code points, so that
    [len] counts glyphs. *)
Definition glyph := N.

(** ["▁▂▃▄▅▆▇█"] *)
Definition blocks : list glyph :=
  [0x2581; 0x2582; 0x2583; 0x2584; 0x2585; 0x2586; 0x2587; 0x2588]%N.

Record AnalyzerBars := {
  capacity : nat;
  samples : list Q
}.

Definition init (capacity : nat) : AnalyzerBars :=
  {| capacity := capacity; samples := [] |}.

Definition push (value : Q) (self : AnalyzerBars) : AnalyzerBars :=
  let appended := samples self ++ [value] in
  if decide (capacity self < length appended)%nat
  then {| capacity := capacity self; samples := tail appended |}
  else {| capacity := capacity self; samples := appended |}.

Definition push_all (values : list Q) (self : AnalyzerBars) : AnalyzerBars :=
  foldl (λ bars v, push v bars) self values.

(** [max(l)]: the first of the largest elements; [ValueError] on [[]]. *)
Fixpoint max_from (best : Q) (l : list Q) : Q :=
  match l with
  | [] => best
  | x :: l' => max_from (if Qle_bool x best then best else x) l'
  end.

Definition max (l : list Q) : res Q :=
  match l with
  | [] => Raise ValueError
  | x :: l' => Ok (max_from x l')
  end.

(** [seq[i]] with Python's negative indices *)
Definition index {A} (l : list A) (i : Z) : res A :=
  let j := if i <? 0 then i + Z.of_nat (length l) else i in
  if 0 <=? j
  then match l !! Z.to_nat j with
       | Some x => Ok x
       | None => Raise IndexError
       end
  else Raise IndexError.

(** [s.rjust(width, fill)] *)
Definition rjust {A} (width : nat) (fill : A) (s : list A) : list A :=
  replicate (width - length s) fill ++ s.

(** [random.choice(seq)], the random source being the index [draw]. *)
Definition choice {A} (l : list A) (draw : nat) : res A :=
  match l with
  | [] => Raise IndexError
  | _ => index l (Z.of_nat (draw mod length l))
  end.

(** [max(self.samples) or 1] *)
Definition max_sample (l : list Q) : res Q :=
  m ← max l;
  mret (if Qeq_bool m 0 then 1%Q else m).

(** [min(int((val / max_sample) * (len(blocks) - 1)), len(blocks) - 1)] *)
Definition normalize (max_sample val : Q) : res Z :=
  let top := Z.of_nat (length blocks) - 1 in
  ratio ← div val max_sample;
  mret (Z.min (int (ratio * inject_Z top)) top).

(** The text of the panel [render] returns; [rand i] is the draw of the
    [i]-th call of [random.choice]. *)
Definition render (rand : nat → nat) (self : AnalyzerBars) : res (list glyph) :=
  match samples self with
  | [] =>
      comprehension (λ i, choice (take 2 blocks) (rand i))
                    (seq 0 (capacity self))
  | _ =>
      m ← max_sample (samples self);
      normalized ← comprehension (normalize m) (samples self);
      spark ← comprehension (index blocks) normalized;
      fill ← index blocks 0;
      mret (rjust (capacity self) fill spark)
  end.

(** The lowest-intensity glyph, [blocks[0]]. *)
Definition lowest : glyph := 0x2581%N.

End Gauges.

(** ** core/speedtest_engine.py *)

Module Engine.
Section Engine.
Context `{RT : PyRuntime}.

(** The keyword arguments of [emit]: [mbps=...], [server=...] or none. *)
Record kwargs := {
  kw_mbps : option Q;
  kw_server : option pyval
}.
Definition no_kwargs : kwargs := {| kw_mbps := None; kw_server := None |}.
Definition mbps_kwarg (x : Q) : kwargs := {| kw_mbps := Some x; kw_server := None |}.
Definition server_kwarg (v : pyval) : kwargs := {| kw_mbps := None; kw_server := Some v |}.

Definition event : Type := string * kwargs.

(** The stages during which the blocking worker can be overtaken by a
    call of [cancel()] from the interactive thread. *)
Inductive stage := Discovery | Ping | Download | Upload.

(** One run of the external [speedtest] library, as the engine sees it. *)
Record Workload := {
  (** [Speedtest()], [get_servers()], [get_best_server()] *)
  best_server : res pyval;
  (** the [(bytes_recv, download_bytes, elapsed)] arguments of each call
      of the download callback, then how [st.download] ends *)
  download_reports : list (Q * Q * Q);
  download_outcome : res ();
  upload_reports : list (Q * Q * Q);
  upload_outcome : res ();
  (** [st.results.dict()] *)
  results_dict : gmap string pyval;
  (** whether [cancel()] is called while the worker is in the stage *)
  cancel_during : stage → bool
}.

(** The mutable state of [_run_blocking]: the engine's flag, the events
    handed to the callback so far, and the two sample lists. *)
Record state := {
  _cancelled : bool;
  emitted : list event;
  download_speeds : list Q;
  upload_speeds : list Q
}.

(** State survives an exception: what was emitted stays emitted. *)
Definition M (A : Type) : Type := state → res A * state.

#[global] Instance M_ret : MRet M := λ A a s, (Ok a, s).
#[global] Instance M_bind : MBind M := λ A B f m s,
  match m s with
  | (Ok a, s') => f a s'
  | (Raise e, s') => (Raise e, s')
  end.

Definition lift {A} (r : res A) : M A := λ s, (r, s).

Definition set_cancelled (b : bool) : M () := λ s,
  (Ok (), {| _cancelled := b; emitted := emitted s;
             download_speeds := download_speeds s;
             upload_speeds := upload_speeds s |}).

(** [cancel()], called from the other thread *)
Definition cancel : M () := set_cancelled true.

Definition emit (status : string) (kw : kwargs) : M () := λ s,
  (Ok (), {| _cancelled := _cancelled s;
             emitted := emitted s ++ [(status, kw)];
             download_speeds := download_speeds s;
             upload_speeds := upload_speeds s |}).

Definition append_download (mbps : Q) : M () := λ s,
  (Ok (), {| _cancelled := _cancelled s; emitted := emitted s;
             download_speeds := download_speeds s ++ [mbps];
             upload_speeds := upload_speeds s |}).

Definition append_upload (mbps : Q) : M () := λ s,
  (Ok (), {| _cancelled := _cancelled s; emitted := emitted s;
             download_speeds := download_speeds s;
             upload_speeds := upload_speeds s ++ [mbps] |}).

(** [if self._cancelled: raise asyncio.CancelledError()] *)
Definition check_cancelled : M () := λ s,
  if _cancelled s then (Raise CancelledError, s) else (Ok (), s).

(** The interactive thread during a stage of the worker. *)
Definition interleave (w : Workload) (st : stage) : M () :=
  if cancel_during w st then cancel else mret ().

Definition download_callback (report : Q * Q * Q) : M () :=
  let '(bytes_recv, download_bytes, elapsed) := report in
  if Qle_bool elapsed 0 then mret ()
  else
    megabits ← lift (div (bytes_recv * 8) 1000000);
    mbps ← lift (div megabits elapsed);
    append_download mbps;;
    emit "downloading" (mbps_kwarg mbps).

Definition upload_callback (report : Q * Q * Q) : M () :=
  let '(bytes_sent, upload_bytes, elapsed) := report in
  if Qle_bool elapsed 0 then mret ()
  else
    megabits ← lift (div (bytes_sent * 8) 1000000);
    mbps ← lift (div megabits elapsed);
    append_upload mbps;;
    emit "uploading" (mbps_kwarg mbps).

Fixpoint for_each {A} (f : A → M ()) (l : list A) : M () :=
  match l with
  | [] => mret ()
  | x :: l' => f x;; for_each f l'
  end.

Definition get_state : M state := λ s, (Ok s, s).

(** [download_speeds: list[float] = []] and the same for uploads *)
Definition clear_speeds : M () := λ s,
  (Ok (), {| _cancelled := _cancelled s; emitted := emitted s;
             download_speeds := []; upload_speeds := [] |}).

(** *** The strings of [server_name] *)

(** ASCII white space, as [str.strip()] removes it.  Strings are byte
    strings here; white space outside ASCII is left in place. *)
Definition is_space (c : ascii) : bool :=
  let n := nat_of_ascii c in
  ((9 <=? n) && (n <=? 13) || (28 <=? n) && (n <=? 32))%nat.

Fixpoint lstrip (s : string) : string :=
  match s with
  | String c s' => if is_space c then lstrip s' else s
  | EmptyString => EmptyString
  end.

Fixpoint rstrip (s : string) : string :=
  match s with
  | String c s' =>
      match rstrip s' with
      | EmptyString => if is_space c then EmptyString else String c EmptyString
      | r => String c r
      end
  | EmptyString => EmptyString
  end.

Definition strip (s : string) : string := rstrip (lstrip s).

(** [sep.join(items)]: [TypeError] unless every item is a string. *)
Fixpoint join (sep : string) (items : list pyval) : res string :=
  match items with
  | [] => Ok ""
  | PStr s :: rest =>
      match rest with
      | [] => Ok s
      | _ => r ← join sep rest; mret (s +:+ sep +:+ r)
      end
  | _ => Raise TypeError
  end.

(** [f"{v}"] *)
Definition format_value (v : pyval) : string :=
  match v with
  | PStr s => s
  | PNone => "None"
  | PBool true => "True"
  | PBool false => "False"
  | _ => str_other v
  end.

(** The [server_name] of the result, from [results.get("server", {})]. *)
Definition synthesize_server_name (server : pyval) : res pyval :=
  if truthy server then
    match server with
    | PDict d =>
        location ← join ", " (List.filter truthy [get d "name"; get d "country"]);
        mret (PStr (strip (format_value (get_or d "sponsor" (PStr ""))
                           +:+ " (" +:+ location +:+ ")")))
    | _ => Raise AttributeError
    end
  else mret PNone.

(** The left operand of [results.get(key, 0.0) / 1_000_000] *)
Definition as_float (v : pyval) : res Q :=
  match v with
  | PNum q => Ok q
  | PBool b => Ok (if b then 1 else 0)%Q
  | _ => Raise TypeError
  end.

(** [results.get("client", {}).get("isp")] *)
Definition client_isp (results : gmap string pyval) : res pyval :=
  match get_or results "client" (PDict ∅) with
  | PDict c => Ok (get c "isp")
  | _ => Raise AttributeError
  end.

(** [if mbps <= 0 and speeds: mbps = max(speeds)] *)
Definition fallback (mbps : Q) (speeds : list Q) : res Q :=
  if Qle_bool mbps 0 && (match speeds with [] => false | _ => true end)
  then Gauges.max speeds
  else Ok mbps.

(** From [results = st.results.dict()] to the [return]. *)
Definition build_result (results : gmap string pyval)
    (download_speeds upload_speeds : list Q) (now : datetime)
  : res SpeedResult :=
  let ping_ms := get_or results "ping" (PNum 0) in
  let jitter_ms := get results "jitter" in
  download ← as_float (get_or results "download" (PNum 0));
  download_mbps ← div download 1000000;
  upload ← as_float (get_or results "upload" (PNum 0));
  upload_mbps ← div upload 1000000;
  let packet_loss := get results "packetLoss" in
  server_name ← synthesize_server_name (get_or results "server" (PDict ∅));
  isp ← client_isp results;
  download_mbps ← fallback download_mbps download_speeds;
  upload_mbps ← fallback upload_mbps upload_speeds;
  mret {|
    ping_ms := ping_ms;
    jitter_ms := jitter_ms;
    download_mbps := PNum download_mbps;
    upload_mbps := PNum upload_mbps;
    packet_loss := packet_loss;
    server_name := server_name;
    isp := isp;
    timestamp := now
  |}.

(** [now] is what [datetime.utcnow()] returns at the end of the run. *)
Definition _run_blocking (w : Workload) (now : datetime) : M SpeedResult :=
  set_cancelled false;;
  emit "finding_server" no_kwargs;;
  interleave w Discovery;;
  best ← lift (best_server w);
  check_cancelled;;
  emit "pinging" (server_kwarg best);;
  interleave w Ping;;
  check_cancelled;;
  clear_speeds;;
  emit "downloading" (mbps_kwarg 0);;
  for_each download_callback (download_reports w);;
  interleave w Download;;
  lift (download_outcome w);;
  check_cancelled;;
  emit "uploading" (mbps_kwarg 0);;
  for_each upload_callback (upload_reports w);;
  interleave w Upload;;
  lift (upload_outcome w);;
  check_cancelled;;
  emit "finalizing" no_kwargs;;
  s ← get_state;
  lift (build_result (results_dict w) (download_speeds s) (upload_speeds s) now).

(** The state of an engine before a run; the flag may be left over from
    an earlier [cancel()]. *)
Definition fresh (flag : bool) : state :=
  {| _cancelled := flag; emitted := []; download_speeds := []; upload_speeds := [] |}.

(** Whether the flag is set at the boundary that ends stage [st]. *)
Definition flag_after (w : Workload) (st : stage) : bool :=
  match st with
  | Discovery => cancel_during w Discovery
  | Ping => cancel_during w Discovery || cancel_during w Ping
  | Download =>
      cancel_during w Discovery || cancel_during w Ping
      || cancel_during w Download
  | Upload =>
      cancel_during w Discovery || cancel_during w Ping
      || cancel_during w Download || cancel_during w Upload
  end.

End Engine.
End Engine.

(** ** ui/cli_dashboard.py *)

Module Dashboard.
Section Dashboard.
Context `{RT : PyRuntime}.

Record StatusMessage := {
  status : string;
  speed : option Q
}.

(** [StatusMessage.__init__]: [self.speed = speed or 0.0] *)
Definition StatusMessage_init (status : string) (speed : option Q) : StatusMessage :=
  {| status := status;
     speed := Some (match speed with
                    | Some x => if Qeq_bool x 0 then 0%Q else x
                    | None => 0%Q
                    end) |}.

(** The reactive fields, the analyzer and the state of the history file. *)
Record Dashboard := {
  status_text : string;
  current_speed : Q;
  result : option SpeedResult;
  running : bool;
  analyzer : Gauges.AnalyzerBars;
  history_file : option text
}.

(** [Dashboard.__init__] with the class-level defaults. *)
Definition init (file : option text) : Dashboard :=
  {| status_text := "IDLE"; current_speed := 0%Q; result := None;
     running := false; analyzer := Gauges.init 50; history_file := file |}.

Definition to_upper (c : ascii) : ascii :=
  let n := nat_of_ascii c in
  if ((97 <=? n) && (n <=? 122))%nat then ascii_of_nat (n - 32) else c.

(** [str.upper()] on ASCII letters *)
Fixpoint upper (s : string) : string :=
  match s with
  | String c s' => String (to_upper c) (upper s')
  | EmptyString => EmptyString
  end.

Definition status_map : gmap string string :=
  list_to_map [
    ("finding_server", "FINDING SERVER");
    ("pinging", "PINGING");
    ("downloading", "DOWNLOADING");
    ("uploading", "UPLOADING");
    ("finalizing", "FINALIZING")
  ].

Definition on_status_message (message : StatusMessage) (self : Dashboard) : Dashboard :=
  let status_text := default (upper (status message)) (status_map !! status message) in
  match speed message with
  | Some speed =>
      {| status_text := status_text; current_speed := speed;
         result := result self; running := running self;
         analyzer := Gauges.push speed (analyzer self);
         history_file := history_file self |}
  | None =>
      {| status_text := status_text; current_speed := current_speed self;
         result := result self; running := running self;
         analyzer := analyzer self; history_file := history_file self |}
  end.

(** The [callback] closure of [_run_test]:
    [speed = payload.get("mbps", 0.0)], then the message is posted. *)
Definition callback (ev : Engine.event) (self : Dashboard) : Dashboard :=
  let '(status, payload) := ev in
  let speed := default 0%Q (Engine.kw_mbps payload) in
  on_status_message (StatusMessage_init status (Some speed)) self.

(** [_run_test] up to the [await]. *)
Definition run_test_begin (self : Dashboard) : Dashboard :=
  {| status_text := "FINDING SERVER"; current_speed := 0%Q; result := None;
     running := true; analyzer := analyzer self;
     history_file := history_file self |}.

(** [_run_test] after the [await], by the outcome of [engine.run]. *)
Definition run_test_end (outcome : res SpeedResult) (self : Dashboard) : res Dashboard :=
  match outcome with
  | Raise CancelledError =>
      Ok {| status_text := "CANCELLED"; current_speed := current_speed self;
            result := result self; running := false;
            analyzer := analyzer self; history_file := history_file self |}
  | Raise e =>
      if is_Exception e
      then Ok {| status_text := "ERROR"; current_speed := 0%Q;
                 result := result self; running := false;
                 analyzer := analyzer self; history_file := history_file self |}
      else Raise e
  | Ok r =>
      file ← save_result r (history_file self);
      mret {| status_text := "COMPLETE"; current_speed := current_speed self;
              result := Some r; running := false;
              analyzer := analyzer self; history_file := file |}
  end.

(** A whole run seen from the dashboard: the start, the messages in the
    order the engine emitted them, then the outcome. *)
Definition run_test (events : list Engine.event) (outcome : res SpeedResult)
    (self : Dashboard) : res Dashboard :=
  run_test_end outcome (foldl (λ d ev, callback ev d) (run_test_begin self) events).

End Dashboard.
End Dashboard.

(** ** core/history.py: [export_history]

    The files are the values of a map from paths to texts; a path stands
    for the file it names. *)

Module HistoryFiles.
Section HistoryFiles.
Context `{RT : PyRuntime}.

(** [history_path] is [HISTORY_FILE], [now] what [datetime.utcnow()]
    returns; the result is the file system after [path.write_text]. *)
Definition export_history (history_path : string) (now : datetime)
    (path : string) (files : gmap string text) : res (gmap string text) :=
  loaded ← load_history (files !! history_path);
  let history := PList ((λ entry, PDict (to_dict entry)) <$> loaded) in
  let payload :=
    PDict (list_to_map [("exported_at", PStr (isoformat now));
                        ("results", history)]) in
  mret (<[path := json_dumps payload]> files).

End HistoryFiles.
End HistoryFiles.

(** ** ui/gauges.py: the speedometer *)

Module Speedometer.

Import Gauges.

Record SpeedometerGauge := {
  max_speed : Q
}.

(** [min(a, b)] and [max(a, b)]: the first argument, unless the second
    is strictly smaller (larger). *)
Definition min (a b : Q) : Q := if Qle_bool a b then a else b.
Definition max (a b : Q) : Q := if Qle_bool b a then a else b.

(** [s.ljust(width)] *)
Definition ljust {A} (width : nat) (fill : A) (s : list A) : list A :=
  s ++ replicate (width - length s) fill.

Definition space : glyph := 0x20%N.

(** [int(ratio * 28)], the column of the needle *)
Definition needle_pos (self : SpeedometerGauge) (speed_mbps : Q) : res Z :=
  let clamped := max 0 (min speed_mbps (max_speed self)) in
  ratio ← div clamped (max_speed self);
  mret (int (ratio * 28)).

(** ["".join("▄" if i <= needle_pos else "·" for i in range(29))] *)
Definition tick_line (needle_pos : Z) : list glyph :=
  (λ i, if Z.of_nat i <=? needle_pos then 0x2584%N else 0xB7%N) <$> seq 0 29.

(** [" " * needle_pos + "⚡"] *)
Definition needle (needle_pos : Z) : list glyph :=
  replicate (Z.to_nat needle_pos) space ++ [0x26A1%N].

(** What the panel shows: the four lines of the dial, then the speed
    text and the status text. *)
Record dial := {
  lines : list (list glyph);
  speed_text : string;
  status_text : string
}.

(** [format_speed] stands for [f"{speed_mbps:6.2f} Mbps"]; [angle] is
    computed and not used. *)
Definition render (format_speed : Q → string) (self : SpeedometerGauge)
    (speed_mbps : Q) (status : string) : res dial :=
  pos ← needle_pos self speed_mbps;
  let rule := replicate 29 0x2500%N in
  mret {|
    lines := [
      [0x250C%N] ++ rule ++ [0x2510%N];
      [0x2502%N] ++ tick_line pos ++ [0x2502%N];
      [0x2502%N] ++ ljust 29 space (needle pos) ++ [0x2502%N];
      [0x2514%N] ++ rule ++ [0x2518%N]
    ];
    speed_text := format_speed speed_mbps;
    status_text := Dashboard.upper status
  |}.

End Speedometer.

(** ** ui/analyzer.py *)

Module Quality.
Section Quality.
Context `{RT : PyRuntime}.

(** [v >= bound] and [v < bound] against a number: [TypeError] unless
    [v] is a number (a boolean counts as 0 or 1). *)
Definition ge (v : pyval) (bound : Q) : res bool :=
  x ← Engine.as_float v; mret (Qle_bool bound x).
Definition lt (v : pyval) (bound : Q) : res bool :=
  x ← Engine.as_float v; mret (negb (Qle_bool bound x)).

(** [v or 0] *)
Definition or_zero (v : pyval) : pyval :=
  if truthy v then v else PNum 0.

(** [result.download_mbps >= down and result.upload_mbps >= up and
    (result.ping_ms or 0) < ping], evaluated from left to right and
    stopping at the first false operand. *)
Definition meets (result : SpeedResult) (down up ping : Q) : res bool :=
  fast_down ← ge (download_mbps result) down;
  if (fast_down : bool) then
    (fast_up ← ge (upload_mbps result) up;
     if (fast_up : bool) then lt (or_zero (ping_ms result)) ping
     else Ok false)
  else Ok false.

Definition summarize_quality (result : SpeedResult) : res string :=
  ultra ← meets result 500 100 20;
  if (ultra : bool) then Ok "ULTRA" else
  (fast ← meets result 200 50 40;
   if (fast : bool) then Ok "FAST" else
   (good ← meets result 50 10 60;
    if (good : bool) then Ok "GOOD" else Ok "BASIC")).

End Quality.
End Quality.

(** ** A concrete runtime

    Naive datetimes (what [datetime.utcnow()] returns) with the two
    forms [isoformat] prints for them, and a JSON codec whose texts are
    the documents themselves next to texts that are not JSON. *)

Module Naive.

Record naive := {
  year : N;
  month : N;
  day : N;
  hour : N;
  minute : N;
  second : N;
  microsecond : N
}.

Definition digit (n : N) : ascii := ascii_of_N (48 + n mod 10).

Fixpoint zero_padded (width : nat) (n : N) : string :=
  match width with
  | O => ""
  | S w => zero_padded w (n / 10) +:+ String (digit n) ""
  end.

(** [YYYY-MM-DDTHH:MM:SS], followed by [.ffffff] unless the microsecond
    is zero. *)
Definition isoformat (t : naive) : string :=
  zero_padded 4 (year t) +:+ "-" +:+ zero_padded 2 (month t) +:+ "-"
  +:+ zero_padded 2 (day t) +:+ "T" +:+ zero_padded 2 (hour t) +:+ ":"
  +:+ zero_padded 2 (minute t) +:+ ":" +:+ zero_padded 2 (second t)
  +:+ (if (microsecond t =? 0)%N then ""
       else "." +:+ zero_padded 6 (microsecond t)).

Definition digit_value (c : ascii) : option N :=
  let n := N_of_ascii c in
  if ((48 <=? n) && (n <=? 57))%N then Some (n - 48)%N else None.

Fixpoint number (width : nat) (acc : N) (s : string) : option (N * string) :=
  match width with
  | O => Some (acc, s)
  | S w =>
      match s with
      | String c s' => d ← digit_value c; number w (10 * acc + d)%N s'
      | EmptyString => None
      end
  end.

Definition expect (c : ascii) (s : string) : option string :=
  match s with
  | String c' s' => if Ascii.eqb c c' then Some s' else None
  | EmptyString => None
  end.

Definition leap (y : N) : bool :=
  ((y mod 4 =? 0) && negb (y mod 100 =? 0) || (y mod 400 =? 0))%N.

Definition days_in_month (y m : N) : N :=
  match m with
  | 2 => if leap y then 29 else 28
  | 4 | 6 | 9 | 11 => 30
  | _ => 31
  end%N.

Definition valid (t : naive) : bool :=
  ((1 <=? year t) && (year t <=? 9999) && (1 <=? month t) && (month t <=? 12)
   && (1 <=? day t) && (day t <=? days_in_month (year t) (month t))
   && (hour t <? 24) && (minute t <? 60) && (second t <? 60)
   && (microsecond t <? 1000000))%N.

Definition fraction (s : string) : option N :=
  match s with
  | EmptyString => Some 0%N
  | _ =>
      s ← expect "." s;
      '(us, rest) ← number 6 0 s;
      match rest with EmptyString => Some us | _ => None end
  end.

Definition fromisoformat (s : string) : option naive :=
  '(y, s) ← number 4 0 s;
  s ← expect "-" s;
  '(mo, s) ← number 2 0 s;
  s ← expect "-" s;
  '(d, s) ← number 2 0 s;
  s ← expect "T" s;
  '(h, s) ← number 2 0 s;
  s ← expect ":" s;
  '(mi, s) ← number 2 0 s;
  s ← expect ":" s;
  '(sec, s) ← number 2 0 s;
  us ← fraction s;
  let t := {| year := y; month := mo; day := d; hour := h; minute := mi;
              second := sec; microsecond := us |} in
  if valid t then Some t else None.

End Naive.

(** The text of a file: the image of a document under [json.dumps], or
    something [json.loads] rejects. *)
Inductive file_text :=
| Document (v : pyval)
| Garbage (s : string).

Definition concrete_runtime : PyRuntime := {|
  datetime := Naive.naive;
  isoformat := Naive.isoformat;
  fromisoformat := Naive.fromisoformat;
  text := file_text;
  json_dumps := Document;
  json_loads := λ txt, match txt with Document v => Some v | Garbage _ => None end;
  str_other := λ _, "<object>"
|}.

(** ** Vocabulary of the statements *)

Section Vocabulary.
Context `{RT : PyRuntime}.

(** The timestamp survives printing and parsing. *)
Definition printable (r : SpeedResult) : Prop :=
  fromisoformat (isoformat (timestamp r)) = Some (timestamp r).

(** A value [from_dict] accepts: a dictionary that deserializes. *)
Definition serialized_record (v : pyval) : Prop :=
  ∃ d r, v = PDict d ∧ from_dict d = Ok r.

(** A document that is a list of serialized result records. *)
Definition record_list (data : pyval) : Prop :=
  ∃ l, data = PList l ∧ Forall serialized_record l.

(** The history file holds text that is not JSON, or a JSON document
    that is not a list of serialized result records. *)
Definition malformed (txt : text) : Prop :=
  json_loads txt = None
  ∨ ∃ data, json_loads txt = Some data ∧ ¬ record_list data.

(** The instantaneous speed a progress report yields, if any:
    [(bytes * 8) / 1_000_000 / elapsed] unless [elapsed <= 0]. *)
Definition sample_of (report : Q * Q * Q) : option Q :=
  let '(bytes, _, elapsed) := report in
  if Qle_bool elapsed 0 then None
  else Some (bytes * 8 / 1000000 / elapsed)%Q.

(** The external library completes every stage up to the boundary that
    ends stage [st], so that execution reaches that boundary unless an
    earlier boundary has already aborted the run. *)
Definition stages_complete (w : Engine.Workload) (st : Engine.stage) : Prop :=
  match st with
  | Engine.Discovery | Engine.Ping =>
      ∃ best, Engine.best_server w = Ok best
  | Engine.Download =>
      (∃ best, Engine.best_server w = Ok best)
      ∧ Engine.download_outcome w = Ok ()
  | Engine.Upload =>
      (∃ best, Engine.best_server w = Ok best)
      ∧ Engine.download_outcome w = Ok ()
      ∧ Engine.upload_outcome w = Ok ()
  end.

(** [needle in hay] *)
Fixpoint contains (needle hay : string) : bool :=
  String.prefix needle hay
  || match hay with
     | String _ hay' => contains needle hay'
     | EmptyString => false
     end.

(** The location between the parentheses of a server name: the city
    and the country that are present and not empty, with [", "] between
    them when both are. *)
Definition location_of (city country : option string) : string :=
  match city, country with
  | Some (String a city'), Some (String b country') =>
      String a city' +:+ ", " +:+ String b country'
  | Some (String a city'), _ => String a city'
  | _, Some (String b country') => String b country'
  | _, _ => ""
  end.

(** The buffer holds no more samples than its capacity. *)
Definition within_capacity (b : Gauges.AnalyzerBars) : Prop :=
  (length (Gauges.samples b) ≤ Gauges.capacity b)%nat.

End Vocabulary.

(** ** Concrete inputs *)

Module Examples.

Definition timestamp_at (second : N) : Naive.naive :=
  {| Naive.year := 2024; Naive.month := 2; Naive.day := 29;
     Naive.hour := 13; Naive.minute := 5; Naive.second := second;
     Naive.microsecond := 250 |}.

(** A completed measurement with [download_mbps=95.0] and
    [upload_mbps=22.0] and the four optional fields absent. *)
Definition result_at (second : N) : @SpeedResult concrete_runtime :=
  @Build_SpeedResult concrete_runtime
    (PNum 12) PNone (PNum 95) (PNum 22) PNone PNone PNone
    (timestamp_at second).

Definition fifteen_results : list (@SpeedResult concrete_runtime) :=
  result_at <$> [0; 1; 2; 3; 4; 5; 6; 7; 8; 9; 10; 11; 12; 13; 14]%N.

(** [finding_server, pinging, downloading(mbps=50), downloading(mbps=80),
    uploading(mbps=20), finalizing] *)
Definition six_events : list Engine.event :=
  [ ("finding_server", Engine.no_kwargs);
    ("pinging", Engine.no_kwargs);
    ("downloading", Engine.mbps_kwarg 50);
    ("downloading", Engine.mbps_kwarg 80);
    ("uploading", Engine.mbps_kwarg 20);
    ("finalizing", Engine.no_kwargs) ].

(** A run during whose download [cancel()] is called. *)
Definition cancelled_download : Engine.Workload :=
  {| Engine.best_server := Ok (PDict {[ "sponsor" := PStr "Acme" ]});
     Engine.download_reports := [(0, 0, 0); (6250000, 6250000, 1)]%Q;
     Engine.download_outcome := Ok ();
     Engine.upload_reports := [];
     Engine.upload_outcome := Ok ();
     Engine.results_dict := ∅;
     Engine.cancel_during := λ st,
       match st with Engine.Download => true | _ => false end |}.

(** The server record of a sponsor without city and country. *)
Definition sponsor_only : gmap string pyval := {[ "sponsor" := PStr "Acme" ]}.

Definition full_server : gmap string pyval :=
  <["sponsor" := PStr "Acme"]>
    (<["name" := PStr "Paris"]> {[ "country" := PStr "France" ]}).

End Examples.

(** ** Vocabulary of the further statements *)

Section TraceVocabulary.
Context `{RT : PyRuntime}.
Import Engine.

Definition finding_server : event := ("finding_server", no_kwargs).
Definition pinging (best : pyval) : event := ("pinging", server_kwarg best).
Definition downloading (mbps : Q) : event := ("downloading", mbps_kwarg mbps).
Definition uploading (mbps : Q) : event := ("uploading", mbps_kwarg mbps).
Definition finalizing : event := ("finalizing", no_kwargs).

(** The start marker of the download stage and one event per sample
    the download callback keeps; the same for the upload stage. *)
Definition download_events (w : Workload) : list event :=
  downloading 0 :: (downloading <$> omap sample_of (download_reports w)).
Definition upload_events (w : Workload) : list event :=
  uploading 0 :: (uploading <$> omap sample_of (upload_reports w)).

(** The events of a run that passes every stage. *)
Definition full_trace (best : pyval) (w : Workload) : list event :=
  [finding_server; pinging best] ++ download_events w ++ upload_events w
  ++ [finalizing].

(** No [cancel()] arrives during the first four stages. *)
Definition never_cancelled (w : Workload) : Prop :=
  ∀ st, cancel_during w st = false.

(** The outcome and the final state of a run, stage by stage. *)
Definition run_summary (w : Workload) (now : datetime)
  : res SpeedResult * state :=
  let ds := omap sample_of (download_reports w) in
  let us := omap sample_of (upload_reports w) in
  let halted flag events ds us :=
    {| _cancelled := flag; emitted := events;
       download_speeds := ds; upload_speeds := us |} in
  match best_server w with
  | Raise e => (Raise e, halted (cancel_during w Discovery) [finding_server] [] [])
  | Ok best =>
    if cancel_during w Discovery
    then (Raise CancelledError, halted true [finding_server] [] [])
    else
    let e1 := [finding_server; pinging best] in
    if cancel_during w Ping
    then (Raise CancelledError, halted true e1 [] [])
    else
    let e2 := e1 ++ download_events w in
    match download_outcome w with
    | Raise e => (Raise e, halted (cancel_during w Download) e2 ds [])
    | Ok _ =>
      if cancel_during w Download
      then (Raise CancelledError, halted true e2 ds [])
      else
      let e3 := e2 ++ upload_events w in
      match upload_outcome w with
      | Raise e => (Raise e, halted (cancel_during w Upload) e3 ds us)
      | Ok _ =>
        if cancel_during w Upload
        then (Raise CancelledError, halted true e3 ds us)
        else (build_result (results_dict w) ds us now,
              halted false (e3 ++ [finalizing]) ds us)
      end
    end
  end.

(** The byte counter of every progress report is non-negative. *)
Definition counters_nonneg (reports : list (Q * Q * Q)) : Prop :=
  Forall (λ report, 0 <= report.1.1)%Q reports.

(** The speed a dashboard message carries for an event:
    [payload.get("mbps", 0.0) or 0.0]. *)
Definition speed_of (ev : event) : Q :=
  match kw_mbps ev.2 with
  | Some x => if Qeq_bool x 0 then 0%Q else x
  | None => 0%Q
  end.

(** The five status tags of the engine. *)
Definition engine_tags : list string :=
  ["finding_server"; "pinging"; "downloading"; "uploading"; "finalizing"].

(** The five labels of [status_map]. *)
Definition engine_labels : list string :=
  ["FINDING SERVER"; "PINGING"; "DOWNLOADING"; "UPLOADING"; "FINALIZING"].

(** The names of the eight fields of a result record. *)
Definition field_names : list string :=
  ["ping_ms"; "jitter_ms"; "download_mbps"; "upload_mbps"; "packet_loss";
   "server_name"; "isp"; "timestamp"].

(** The glyph of a sample [val] in a buffer whose divisor is [m]:
    [blocks[min(int(val / m * 7), 7)]] for an index within [blocks]. *)
Definition bar_of (m val : Q) : Gauges.glyph :=
  nth (Z.to_nat (Z.min (int (val / m * 7)) 7)) Gauges.blocks Gauges.lowest.

(** ["█"], the last of [blocks] *)
Definition full_block : Gauges.glyph := 0x2588%N.

(** The four grades of [summarize_quality], best last. *)
Definition grade_rank (grade : string) : nat :=
  if String.eqb grade "ULTRA" then 3
  else if String.eqb grade "FAST" then 2
  else if String.eqb grade "GOOD" then 1
  else 0.

End TraceVocabulary.

(** ** Further concrete inputs *)

Module MoreExamples.
Import Examples.

Definition best : pyval := PDict full_server.

(** A run that passes every stage: one download report is discarded
    ([elapsed = 0]), one is kept, one upload report is kept. *)
Definition complete_run : Engine.Workload :=
  {| Engine.best_server := Ok best;
     Engine.download_reports := [(0, 0, 0); (6250000, 6250000, 1)]%Q;
     Engine.download_outcome := Ok ();
     Engine.upload_reports := [(2500000, 2500000, 1)]%Q;
     Engine.upload_outcome := Ok ();
     Engine.results_dict :=
       <["download" := PNum 95000000]>
         (<["upload" := PNum 22000000]> {[ "ping" := PNum 12 ]});
     Engine.cancel_during := λ _, false |}.

(** A run whose download fails while [cancel()] arrives. *)
Definition failing_download : Engine.Workload :=
  {| Engine.best_server := Ok best;
     Engine.download_reports := [];
     Engine.download_outcome := Raise (WorkloadError "download failed");
     Engine.upload_reports := [];
     Engine.upload_outcome := Ok ();
     Engine.results_dict := ∅;
     Engine.cancel_during := λ st,
       match st with Engine.Download => true | _ => false end |}.

Definition figures : gmap string pyval :=
  <["download" := PNum 95000000]>
    (<["upload" := PNum 22000000]> {[ "ping" := PNum 12 ]}).

(** The history file with fifteen serialized records. *)
Definition long_history : file_text :=
  Document (PList ((λ entry, PDict (@to_dict concrete_runtime entry))
                     <$> fifteen_results)).

Definition some_files : gmap string file_text :=
  {[ "history.json" := long_history ]}.

Definition slow_result : @SpeedResult concrete_runtime :=
  @Build_SpeedResult concrete_runtime
    (PNum 45) PNone (PNum 60) (PNum 12) PNone PNone PNone (timestamp_at 0).

Definition fast_result : @SpeedResult concrete_runtime :=
  @Build_SpeedResult concrete_runtime
    (PNum 18) PNone (PNum 650) (PNum 120) PNone PNone PNone (timestamp_at 1).

Definition gauge : Speedometer.SpeedometerGauge :=
  {| Speedometer.max_speed := 1200 |}.

Definition flat_gauge : Speedometer.SpeedometerGauge :=
  {| Speedometer.max_speed := 0 |}.

(** A record without ping, as a history file may hold it. *)
Definition no_ping_result : @SpeedResult concrete_runtime :=
  @Build_SpeedResult concrete_runtime
    PNone PNone (PNum 650) (PNum 120) PNone PNone PNone (timestamp_at 2).

End MoreExamples.

(** * Properties *)

(** ** The result record and its dictionary form *)

Section UnitsFacts.
Context `{RT : PyRuntime}.

Lemma to_dict_timestamp (r : SpeedResult) :
  to_dict r !! "timestamp" = Some (PStr (isoformat (timestamp r))).
Proof. reflexivity. Qed.

Lemma to_dict_fields (r : SpeedResult) :
  get_or (to_dict r) "ping_ms" (PNum 0) = ping_ms r
  ∧ get (to_dict r) "jitter_ms" = jitter_ms r
  ∧ get_or (to_dict r) "download_mbps" (PNum 0) = download_mbps r
  ∧ get_or (to_dict r) "upload_mbps" (PNum 0) = upload_mbps r
  ∧ get (to_dict r) "packet_loss" = packet_loss r
  ∧ get (to_dict r) "server_name" = server_name r
  ∧ get (to_dict r) "isp" = isp r.
Proof. repeat split; reflexivity. Qed.

Lemma from_dict_inverts_to_dict (r : SpeedResult) :
  printable r → from_dict (to_dict r) = Ok r.
Proof.
  intros Hiso. unfold from_dict, subscript.
  rewrite to_dict_timestamp. cbn [mbind res_bind datetime_fromisoformat].
  rewrite Hiso. cbn [mbind res_bind mret res_ret].
  destruct (to_dict_fields r) as (-> & -> & -> & -> & -> & -> & ->).
  by destruct r.
Qed.

(** C2: deserializing the dictionary form of a result record gives the
    record back, equal on all eight fields, whatever the seven data
    fields hold (absent optional fields included).  The hypothesis is the
    contract of the datetime library on the record's timestamp:
    [fromisoformat] reads back what [isoformat] printed. *)
Theorem C2_from_dict_to_dict (r : SpeedResult) :
  fromisoformat (isoformat (timestamp r)) = Some (timestamp r) →
  from_dict (to_dict r) = Ok r.
Proof.
  intros Hparse. unfold from_dict, subscript.
  rewrite to_dict_timestamp. cbn [mbind res_bind datetime_fromisoformat].
  rewrite Hparse. cbn [mbind res_bind mret res_ret]. f_equal.
  destruct (to_dict_fields r) as (Hping & Hjitter & Hdown & Hup & Hloss
                                  & Hserver & Hisp).
  rewrite Hping, Hjitter, Hdown, Hup, Hloss, Hserver, Hisp.
  by destruct r.
Qed.

(** C10: [from_dict] raises [KeyError] when the key ["timestamp"] is
    missing; when it holds a string the datetime parser accepts, the
    call succeeds, every key that is present is taken as it is, and an
    absent [ping_ms], [download_mbps] or [upload_mbps] becomes [0.0], an
    absent [jitter_ms], [packet_loss], [server_name] or [isp] becomes
    [None]. *)
Theorem C10_from_dict_defaults (data : gmap string pyval) :
  (data !! "timestamp" = None → from_dict data = Raise KeyError)
  ∧ (∀ s t,
       data !! "timestamp" = Some (PStr s) →
       fromisoformat s = Some t →
       ∃ r, from_dict data = Ok r
         ∧ timestamp r = t
         ∧ ping_ms r = default (PNum 0) (data !! "ping_ms")
         ∧ download_mbps r = default (PNum 0) (data !! "download_mbps")
         ∧ upload_mbps r = default (PNum 0) (data !! "upload_mbps")
         ∧ jitter_ms r = default PNone (data !! "jitter_ms")
         ∧ packet_loss r = default PNone (data !! "packet_loss")
         ∧ server_name r = default PNone (data !! "server_name")
         ∧ isp r = default PNone (data !! "isp")).
Proof.
  split.
  - intros Hts. unfold from_dict, subscript. by rewrite Hts.
  - intros s t Hts Hparse. unfold from_dict, subscript.
    rewrite Hts. cbn [mbind res_bind datetime_fromisoformat].
    rewrite Hparse. cbn [mbind res_bind mret res_ret].
    eexists. split; [reflexivity|]. by repeat split.
Qed.

End UnitsFacts.

(** ** The history store *)

Section HistoryFacts.
Context `{RT : PyRuntime}.

Lemma length_last_n {A} (n : nat) (l : list A) :
  length (last_n n l) = (length l `min` n)%nat.
Proof. unfold last_n. rewrite length_drop. lia. Qed.

Lemma last_n_all {A} (n : nat) (l : list A) :
  (length l ≤ n)%nat → last_n n l = l.
Proof.
  intros Hle. unfold last_n.
  by replace (length l - n)%nat with 0%nat by lia.
Qed.

Lemma last_n_snoc_last_n {A} (n : nat) (h : list A) (x : A) :
  (0 < n)%nat → last_n n (last_n n h ++ [x]) = last_n n (h ++ [x]).
Proof.
  intros Hn. destruct (decide (length h ≤ n)%nat) as [Hle|Hgt].
  - by rewrite (last_n_all n h).
  - unfold last_n at 1 3. rewrite !length_app, length_last_n. cbn [length].
    unfold last_n. rewrite <- (drop_app_le h [x]) by lia.
    rewrite drop_drop. f_equal. lia.
Qed.

Lemma Forall_last_n {A} (P : A → Prop) (n : nat) (l : list A) :
  Forall P l → Forall P (last_n n l).
Proof. apply Forall_drop. Qed.

Lemma from_dict_raises_Exception (d : gmap string pyval) (e : exn) :
  from_dict d = Raise e → is_Exception e = true.
Proof.
  unfold from_dict, subscript.
  destruct (d !! "timestamp") as [v|]; cbn; [|by intros [= <-]].
  destruct v; cbn; try by intros [= <-].
  destruct (fromisoformat s); cbn; [done | by intros [= <-]].
Qed.

Lemma from_item_raises_Exception (v : pyval) (e : exn) :
  from_item v = Raise e → is_Exception e = true.
Proof.
  destruct v; cbn; try by intros [= <-].
  apply from_dict_raises_Exception.
Qed.

Lemma comprehension_raises {A B} (f : A → res B) (l : list A) (e : exn) :
  comprehension f l = Raise e → ∃ x, x ∈ l ∧ f x = Raise e.
Proof.
  induction l as [|x l IH]; cbn; [done|].
  destruct (f x) as [y|e'] eqn:Hx; cbn.
  - destruct (comprehension f l) as [ys|e'']; cbn; [done|].
    intros [= <-]. destruct (IH eq_refl) as (x' & Hin & Hx').
    exists x'. split; [by right | done].
  - intros [= <-]. exists x. split; [by left | done].
Qed.

Lemma comprehension_Ok {A B} (f : A → res B) (l : list A) (ys : list B) :
  comprehension f l = Ok ys → Forall (λ x, ∃ y, f x = Ok y) l.
Proof.
  revert ys. induction l as [|x l IH]; intros ys; cbn; [by constructor|].
  destruct (f x) as [y|e] eqn:Hx; cbn; [|done].
  destruct (comprehension f l) as [ys'|e] eqn:Hl; cbn; [|done].
  intros _. constructor; [by exists y | by eapply IH].
Qed.

Lemma comprehension_fmap_Ok {A B} (f : A → res B) (g : B → A) (l : list B) :
  Forall (λ y, f (g y) = Ok y) l → comprehension f (g <$> l) = Ok l.
Proof.
  induction 1 as [|y l Hy _ IH]; cbn; [done|].
  by rewrite Hy; cbn; rewrite IH.
Qed.

(** What the body of the [try] in [load_history] raises is always an
    [Exception], so the handler always takes it. *)
Lemma load_history_total (file : option text) :
  ∃ l, load_history file = Ok l.
Proof.
  destruct file as [txt|]; cbn; [|by eexists].
  unfold loads. destruct (json_loads txt) as [data|]; cbn; [|by eexists].
  destruct (iter data) as [items|e] eqn:Hiter; cbn.
  - destruct (comprehension from_item items) as [rs|e] eqn:Hrs; cbn;
      [by eexists|].
    apply comprehension_raises in Hrs as (x & _ & Hx).
    apply from_item_raises_Exception in Hx as ->. by eexists.
  - destruct data; cbn in Hiter; try done; injection Hiter as <-; by eexists.
Qed.

Lemma load_history_malformed (txt : text) :
  malformed txt → load_history (Some txt) = Ok [].
Proof.
  intros [Hnone | (data & Hdata & Hbad)]; cbn; unfold loads.
  - by rewrite Hnone.
  - rewrite Hdata. cbn.
    destruct (iter data) as [items|e] eqn:Hiter; cbn.
    + destruct (comprehension from_item items) as [rs|e] eqn:Hrs; cbn.
      * pose proof (comprehension_Ok _ _ _ Hrs) as Hall.
        destruct data; cbn in Hiter; try done; injection Hiter as <-.
        -- destruct s as [|c s]; [by injection Hrs as <-|].
           cbn in Hall. apply Forall_cons in Hall as [[? [=]] _].
        -- exfalso. apply Hbad. exists l. split; [done|].
           eapply Forall_impl; [exact Hall|]. intros v [r Hr].
           destruct v; cbn in Hr; try done. by exists d, r.
        -- destruct (map_to_list d).*1 as [|k ks]; [by injection Hrs as <-|].
           cbn in Hall. apply Forall_cons in Hall as [[? [=]] _].
      * apply comprehension_raises in Hrs as (x & _ & Hx).
        by apply from_item_raises_Exception in Hx as ->.
    + by destruct data; cbn in Hiter; try done; injection Hiter as <-.
Qed.

Lemma last_n_app_last_n {A} (n : nat) (h l : list A) :
  last_n n (last_n n h ++ l) = last_n n (h ++ l).
Proof.
  destruct (decide (length h ≤ n)%nat) as [Hle|Hgt].
  - by rewrite (last_n_all n h).
  - unfold last_n at 1 3. rewrite !length_app, length_last_n.
    unfold last_n. rewrite <- (drop_app_le h l) by lia.
    rewrite drop_drop. f_equal. lia.
Qed.

Lemma load_history_length (file : option text) (h : list SpeedResult) :
  load_history file = Ok h → (length h ≤ HISTORY_LIMIT)%nat.
Proof.
  destruct file as [txt|]; cbn; [|intros [= <-]; cbn; lia].
  destruct (loads txt) as [data|e]; cbn;
    [|destruct (is_Exception e); intros [= <-]; cbn; lia].
  destruct (iter data) as [items|e]; cbn;
    [|destruct (is_Exception e); intros [= <-]; cbn; lia].
  destruct (comprehension from_item items) as [rs|e]; cbn;
    [|destruct (is_Exception e); intros [= <-]; cbn; lia].
  intros [= <-]. rewrite length_last_n. lia.
Qed.

Lemma load_history_written (l : list SpeedResult) :
  (∀ v, json_loads (json_dumps v) = Some v) →
  Forall printable l →
  load_history
    (Some (json_dumps (PList ((λ entry, PDict (to_dict entry)) <$> l))))
  = Ok (last_n HISTORY_LIMIT l).
Proof.
  intros Hjson Hl. unfold load_history, loads. rewrite Hjson.
  cbn [mbind res_bind iter].
  rewrite (comprehension_fmap_Ok from_item (λ entry, PDict (to_dict entry))).
  - done.
  - eapply Forall_impl; [exact Hl|]. intros r Hr. cbn.
    by apply from_dict_inverts_to_dict.
Qed.

Lemma save_result_then_load (file : option text) (h : list SpeedResult)
    (r : SpeedResult) :
  (∀ v, json_loads (json_dumps v) = Some v) →
  load_history file = Ok h → Forall printable h → printable r →
  ∃ file', save_result r file = Ok file'
    ∧ load_history file' = Ok (last_n HISTORY_LIMIT (h ++ [r])).
Proof.
  intros Hjson Hload Hh Hr. unfold save_result. rewrite Hload. cbn.
  eexists. split; [reflexivity|].
  rewrite load_history_written; [|done|].
  - f_equal. apply last_n_all. rewrite length_last_n. lia.
  - apply Forall_last_n, Forall_app. split; [done | by constructor].
Qed.

Lemma save_all_then_load (rs : list SpeedResult) :
  (∀ v, json_loads (json_dumps v) = Some v) →
  Forall printable rs →
  ∀ file h,
    load_history file = Ok h → Forall printable h →
    ∃ file', save_all rs file = Ok file'
      ∧ load_history file' = Ok (last_n HISTORY_LIMIT (h ++ rs)).
Proof.
  intros Hjson. induction 1 as [|r rs Hr Hrs IH]; intros file h Hload Hh; cbn.
  - exists file. split; [done|]. rewrite app_nil_r, Hload. f_equal.
    symmetry. apply last_n_all. by eapply load_history_length.
  - destruct (save_result_then_load file h r Hjson Hload Hh Hr)
      as (file1 & -> & Hload1). cbn.
    destruct (IH file1 _ Hload1) as (file' & Hsave & Hload').
    { apply Forall_last_n, Forall_app. split; [done | by constructor]. }
    exists file'. split; [done|].
    by rewrite Hload', last_n_app_last_n, <- app_assoc.
Qed.

(** What [save_result] writes: the JSON text of the last 10 of the old
    history followed by the new record, each as its dict. *)
Lemma save_result_written (file : option text) (h : list SpeedResult)
    (r : SpeedResult) :
  load_history file = Ok h →
  save_result r file
  = Ok (Some (json_dumps
                (PList ((λ entry, PDict (to_dict entry))
                          <$> last_n HISTORY_LIMIT (h ++ [r]))))).
Proof. intros Hload. unfold save_result. by rewrite Hload. Qed.

(** What a non-empty sequence of [save_result] calls leaves in the file. *)
Lemma save_all_written (rs : list SpeedResult) :
  (∀ v, json_loads (json_dumps v) = Some v) →
  Forall printable rs →
  ∀ r file h,
    load_history file = Ok h → Forall printable h → printable r →
    save_all (r :: rs) file
    = Ok (Some (json_dumps
                  (PList ((λ entry, PDict (to_dict entry))
                            <$> last_n HISTORY_LIMIT (h ++ r :: rs))))).
Proof.
  intros Hjson. induction 1 as [|r' rs Hr' Hrs IH];
    intros r file h Hload Hh Hr.
  - cbn [save_all]. by rewrite (save_result_written file h r Hload).
  - change (save_all (r :: r' :: rs) file)
      with (file' ← save_result r file; save_all (r' :: rs) file').
    rewrite (save_result_written file h r Hload). cbn [mbind res_bind].
    rewrite (IH r' _ (last_n HISTORY_LIMIT (h ++ [r]))); [| |..|done].
    + by rewrite last_n_app_last_n, <- app_assoc.
    + rewrite load_history_written; [|done|].
      * f_equal. apply last_n_all. rewrite length_last_n. lia.
      * apply Forall_last_n, Forall_app. split; [done | by constructor].
    + apply Forall_last_n, Forall_app. split; [done | by constructor].
Qed.

(** C3: provided [json.loads] reads back what [json.dumps] wrote and
    the timestamps survive printing and parsing, (1) appending any
    sequence of records to an empty store leaves the last 10 of them, in
    the order they were appended, and when the sequence is not empty the
    file written holds exactly the dicts of those records; (2) for 15
    records the file holds a list of exactly 10 dicts, those of the
    sequence without its first 5, and that is what is read back; (3) one
    append to any store writes a file whose JSON list is the dicts of the
    last 10 of the old history followed by the new record, at most 10
    items, the oldest ones dropped, and that is what is read back. *)
Theorem C3_save_result_keeps_last_10 :
  (∀ v, json_loads (json_dumps v) = Some v) →
  (∀ rs, Forall printable rs →
     ∃ file, save_all rs None = Ok file
       ∧ load_history file = Ok (drop (length rs - 10) rs)
       ∧ (rs ≠ [] →
          ∃ txt, file = Some txt
            ∧ json_loads txt
              = Some (PList ((λ entry, PDict (to_dict entry))
                               <$> drop (length rs - 10) rs))))
  ∧ (∀ rs, length rs = 15%nat → Forall printable rs →
       ∃ txt items, save_all rs None = Ok (Some txt)
         ∧ json_loads txt = Some (PList items)
         ∧ items = (λ entry, PDict (to_dict entry)) <$> drop 5 rs
         ∧ length items = 10%nat
         ∧ load_history (Some txt) = Ok (drop 5 rs))
  ∧ (∀ file h r,
       load_history file = Ok h → Forall printable h → printable r →
       ∃ txt items, save_result r file = Ok (Some txt)
         ∧ json_loads txt = Some (PList items)
         ∧ items = (λ entry, PDict (to_dict entry))
                     <$> drop (length (h ++ [r]) - 10) (h ++ [r])
         ∧ (length items ≤ 10)%nat
         ∧ load_history (Some txt)
           = Ok (drop (length (h ++ [r]) - 10) (h ++ [r]))).
Proof.
  intros Hjson. split; [|split].
  - intros rs Hrs.
    destruct (save_all_then_load rs Hjson Hrs None [] eq_refl)
      as (file & Hsave & Hload); [done|].
    exists file. split; [done|]. split; [done|]. intros Hne.
    destruct Hrs as [|r rs Hr Hrs]; [done|].
    rewrite (save_all_written rs Hjson Hrs r None [] eq_refl) in Hsave;
      [|done|done].
    injection Hsave as <-. eexists. split; [reflexivity|].
    by rewrite Hjson.
  - intros rs Hlen Hrs.
    destruct Hrs as [|r rs Hr Hrs]; [done|].
    do 2 eexists.
    split; [by apply (save_all_written rs Hjson Hrs r None [] eq_refl)|].
    split; [by rewrite Hjson|].
    assert (last_n HISTORY_LIMIT ([] ++ r :: rs) = drop 5 (r :: rs)) as ->.
    { unfold last_n. cbn [app]. by rewrite Hlen. }
    split; [done|].
    split; [rewrite length_fmap, length_drop, Hlen; done|].
    rewrite load_history_written; [|done|].
    + f_equal. apply last_n_all. rewrite length_drop, Hlen.
      unfold HISTORY_LIMIT. lia.
    + apply Forall_drop. by constructor.
  - intros file h r Hload Hh Hr.
    do 2 eexists.
    split; [by apply save_result_written|].
    split; [by rewrite Hjson|].
    split; [done|].
    split; [rewrite length_fmap, length_last_n; unfold HISTORY_LIMIT; lia|].
    rewrite load_history_written; [|done|].
    + f_equal. apply (last_n_all _ (last_n HISTORY_LIMIT (h ++ [r]))).
      rewrite length_last_n. lia.
    + apply Forall_last_n, Forall_app. split; [done | by constructor].
Qed.

(** C4: [load_history] never raises; it returns the empty list when the
    file is missing and when its content is malformed, that is not JSON
    or not a list of serialized result records. *)
Theorem C4_load_history_degrades (file : option text) :
  (∃ l, load_history file = Ok l)
  ∧ (file = None → load_history file = Ok [])
  ∧ (∀ txt, file = Some txt → malformed txt → load_history file = Ok []).
Proof.
  split; [apply load_history_total|]. split.
  - by intros ->.
  - intros txt -> Hbad. by apply load_history_malformed.
Qed.

End HistoryFacts.

(** ** The analyzer sparkline *)

Section GaugesFacts.
Import Gauges.

Lemma comprehension_length {A B} (f : A → res B) (l : list A) (ys : list B) :
  comprehension f l = Ok ys → length ys = length l.
Proof.
  revert ys. induction l as [|x l IH]; intros ys; cbn.
  - by intros [= <-].
  - destruct (f x) as [y|e]; cbn; [|done].
    destruct (comprehension f l) as [ys'|e]; cbn; [|done].
    intros [= <-]. cbn. by rewrite (IH ys').
Qed.

Lemma comprehension_total {A B} (f : A → res B) (l : list A) :
  Forall (λ x, ∃ y, f x = Ok y) l → ∃ ys, comprehension f l = Ok ys.
Proof.
  induction 1 as [|x l [y Hy] _ [ys IH]]; cbn; [by eexists|].
  rewrite Hy; cbn. rewrite IH; cbn. by eexists.
Qed.

Lemma comprehension_constant {A B} (f : A → res B) (l : list A) (y : B) :
  Forall (λ x, f x = Ok y) l →
  comprehension f l = Ok (replicate (length l) y).
Proof.
  induction 1 as [|x l Hx _ IH]; cbn; [done|].
  by rewrite Hx; cbn; rewrite IH.
Qed.

(** *** [push] keeps the buffer within its capacity *)

Lemma push_capacity (v : Q) (b : AnalyzerBars) :
  capacity (push v b) = capacity b.
Proof. unfold push. by case_decide. Qed.

Lemma push_within_capacity (v : Q) (b : AnalyzerBars) :
  within_capacity b → within_capacity (push v b).
Proof.
  unfold within_capacity, push. intros Hb.
  case_decide as Hfull; cbn; [|lia].
  rewrite length_tl, length_app. cbn. lia.
Qed.

Lemma push_Forall (P : Q → Prop) (v : Q) (b : AnalyzerBars) :
  P v → Forall P (samples b) → Forall P (samples (push v b)).
Proof.
  intros Hv Hb. unfold push.
  assert (Forall P (samples b ++ [v])) as Happ.
  { apply Forall_app. split; [done | by constructor]. }
  case_decide; cbn; [|done].
  destruct (samples b ++ [v]); [done | by inversion Happ].
Qed.

Lemma push_all_invariant (P : Q → Prop) (values : list Q) (b : AnalyzerBars) :
  within_capacity b → Forall P (samples b) → Forall P values →
  capacity (push_all values b) = capacity b
  ∧ within_capacity (push_all values b)
  ∧ Forall P (samples (push_all values b)).
Proof.
  revert b. induction values as [|v values IH]; intros b Hb HPb Hvs; [done|].
  apply Forall_cons in Hvs as [Hv Hvs]. cbn.
  destruct (IH (push v b)) as (Hcap & Hwithin & HP).
  - by apply push_within_capacity.
  - by apply push_Forall.
  - done.
  - by rewrite <- (push_capacity v b).
Qed.

(** *** [max] *)

Lemma max_from_bounds (best : Q) (l : list Q) :
  (best <= max_from best l)%Q
  ∧ Forall (λ x, x <= max_from best l)%Q l.
Proof.
  revert best. induction l as [|x l IH]; intros best; cbn.
  - split; [apply Qle_refl | constructor].
  - destruct (Qle_bool x best) eqn:Hle.
    + apply Qle_bool_iff in Hle. destruct (IH best) as [Hbest Hall].
      split; [done|]. constructor; [|done]. by eapply Qle_trans.
    + assert (best <= x)%Q as Hlt.
      { apply Qlt_le_weak, Qnot_le_lt. intros Hc.
        apply Qle_bool_iff in Hc. congruence. }
      destruct (IH x) as [Hx Hall].
      split; [by eapply Qle_trans|]. by constructor.
Qed.

Lemma max_from_elem (best : Q) (l : list Q) :
  max_from best l ∈ best :: l.
Proof.
  revert best. induction l as [|x l IH]; intros best; cbn; [by left|].
  destruct (Qle_bool x best).
  - specialize (IH best). apply elem_of_cons in IH as [->|Hin].
    + by left.
    + by do 2 right.
  - right. apply IH.
Qed.

Lemma max_from_all_zero (best : Q) (l : list Q) :
  (best == 0)%Q → Forall (λ x, x == 0)%Q l → max_from best l = best.
Proof.
  intros Hbest. induction 1 as [|x l Hx _ IH]; cbn; [done|].
  assert (Qle_bool x best = true) as ->; [|done].
  apply Qle_bool_iff. rewrite Hx, Hbest. apply Qle_refl.
Qed.

Lemma max_sample_nonzero (l : list Q) (m : Q) :
  max_sample l = Ok m → ¬ (m == 0)%Q.
Proof.
  unfold max_sample. destruct (max l) as [m'|e]; cbn; [|done].
  destruct (Qeq_bool m' 0) eqn:Hz; intros [= <-].
  - done.
  - by apply Qeq_bool_neq.
Qed.

Lemma max_sample_positive (l : list Q) :
  l ≠ [] → Forall (λ x, 0 <= x)%Q l →
  ∃ m, max_sample l = Ok m ∧ (0 < m)%Q.
Proof.
  intros Hne Hl. destruct l as [|x l]; [done|].
  apply Forall_cons in Hl as [Hx _]. unfold max_sample. cbn.
  destruct (max_from_bounds x l) as [Hbest _].
  destruct (Qeq_bool (max_from x l) 0) eqn:Hz.
  - by eexists.
  - eexists. split; [done|]. apply Qeq_bool_neq in Hz.
    apply Qle_lteq in Hbest as [Hlt|Heq].
    + by eapply Qle_lt_trans.
    + apply Qle_lteq in Hx as [Hlt|Hx0]; [by rewrite <- Heq|].
      exfalso. apply Hz. by rewrite <- Heq, <- Hx0.
Qed.

(** *** [render] *)

Lemma int_nonneg (q : Q) : (0 <= q)%Q → 0 ≤ int q.
Proof.
  unfold Qle, int. cbn. intros Hq. apply Z.quot_pos; lia.
Qed.

Lemma normalize_range (m val : Q) :
  (0 < m)%Q → (0 <= val)%Q →
  ∃ z, normalize m val = Ok z ∧ 0 ≤ z ≤ 7.
Proof.
  intros Hm Hval. unfold normalize, div.
  destruct (Qeq_bool m 0) eqn:Hz.
  { apply Qeq_bool_iff in Hz. rewrite Hz in Hm. by apply Qlt_irrefl in Hm. }
  cbn [mbind res_bind mret res_ret].
  change (Z.of_nat (length blocks) - 1) with 7.
  eexists. split; [reflexivity|].
  assert (0 ≤ int (val / m * inject_Z 7)); [|lia].
  apply int_nonneg, Qmult_le_0_compat; [|done].
  apply Qmult_le_0_compat; [done|]. by apply Qinv_le_0_compat, Qlt_le_weak.
Qed.

Lemma normalize_zero (val : Q) :
  (val == 0)%Q → normalize 1 val = Ok 0.
Proof.
  destruct val as [n d]. unfold Qeq. cbn. intros Hn.
  assert (n = 0) as -> by lia. reflexivity.
Qed.

Lemma index_blocks (z : Z) :
  0 ≤ z ≤ 7 → ∃ g, index blocks z = Ok g.
Proof.
  intros Hz.
  assert (z = 0 ∨ z = 1 ∨ z = 2 ∨ z = 3 ∨ z = 4 ∨ z = 5 ∨ z = 6 ∨ z = 7)
    as Hcases by lia.
  repeat destruct Hcases as [->|Hcases]; try subst z; by eexists.
Qed.

Lemma index_raises {A} (l : list A) (i : Z) (e : exn) :
  index l i = Raise e → e = IndexError.
Proof.
  unfold index. destruct (0 <=? _); [|by intros [= <-]].
  destruct (l !! _); [done | by intros [= <-]].
Qed.

Lemma choice_low_blocks (draw : nat) :
  ∃ g, choice (take 2 blocks) draw = Ok g.
Proof.
  unfold choice. cbn [take blocks length].
  pose proof (Nat.mod_upper_bound draw 2) as Hlt.
  destruct (draw mod 2)%nat as [|[|k]]; [by eexists..|lia].
Qed.

Lemma rjust_length {A} (width : nat) (fill : A) (s : list A) :
  length (rjust width fill s) = (width `max` length s)%nat.
Proof. unfold rjust. rewrite length_app, length_replicate. lia. Qed.

Lemma render_empty (rand : nat → nat) (b : AnalyzerBars) :
  samples b = [] →
  ∃ spark, render rand b = Ok spark ∧ length spark = capacity b.
Proof.
  intros Hempty. unfold render. rewrite Hempty.
  destruct (comprehension_total
              (λ i, choice (take 2 blocks) (rand i)) (seq 0 (capacity b)))
    as [spark Hspark].
  { apply Forall_forall. intros i _. apply choice_low_blocks. }
  exists spark. split; [done|].
  by rewrite (comprehension_length _ _ _ Hspark), length_seq.
Qed.

Lemma render_samples (rand : nat → nat) (b : AnalyzerBars) :
  samples b ≠ [] → Forall (λ v, 0 <= v)%Q (samples b) →
  ∃ bars, length bars = length (samples b)
    ∧ render rand b
      = Ok (replicate (capacity b - length (samples b)) lowest ++ bars).
Proof.
  intros Hne Hpos. unfold render.
  destruct (max_sample_positive _ Hne Hpos) as (m & -> & Hm).
  destruct (samples b) as [|v l] eqn:Hs; [done|]. rewrite <- Hs in *.
  cbn [mbind res_bind].
  destruct (comprehension_total (normalize m) (samples b)) as [zs Hzs].
  { eapply Forall_impl; [exact Hpos|]. intros x Hx.
    destruct (normalize_range m x Hm Hx) as (z & -> & _). by eexists. }
  assert (Forall (λ z, 0 ≤ z ≤ 7) zs) as Hrange.
  { clear Hs Hne. revert zs Hzs.
    induction Hpos as [|x xs Hx _ IH]; intros zs; cbn.
    - intros [= <-]. constructor.
    - destruct (normalize_range m x Hm Hx) as (z & -> & Hz). cbn.
      destruct (comprehension (normalize m) xs) as [zs'|]; cbn; [|done].
      intros [= <-]. constructor; [done | by apply IH]. }
  rewrite Hzs. cbn [mbind res_bind].
  destruct (comprehension_total (index blocks) zs) as [bars Hbars].
  { eapply Forall_impl; [exact Hrange|]. intros z Hz. by apply index_blocks. }
  rewrite Hbars. cbn. exists bars. split.
  - rewrite (comprehension_length _ _ _ Hbars).
    by rewrite (comprehension_length _ _ _ Hzs).
  - unfold rjust. do 3 f_equal.
    rewrite (comprehension_length _ _ _ Hbars).
    by rewrite (comprehension_length _ _ _ Hzs).
Qed.

Lemma render_Ok_length (rand : nat → nat) (b : AnalyzerBars)
    (spark : list glyph) :
  within_capacity b → render rand b = Ok spark → length spark = capacity b.
Proof.
  unfold within_capacity, render. intros Hwithin.
  destruct (samples b) as [|v l] eqn:Hs.
  - intros Hspark. by rewrite (comprehension_length _ _ _ Hspark), length_seq.
  - rewrite <- Hs in *.
    destruct (max_sample (samples b)) as [m|]; cbn [mbind res_bind]; [|done].
    destruct (comprehension (normalize m) (samples b)) as [zs|] eqn:Hzs;
      cbn [mbind res_bind]; [|done].
    destruct (comprehension (index blocks) zs) as [bars|] eqn:Hbars;
      cbn [mbind res_bind]; [|done].
    change (index blocks 0) with (Ok lowest).
    cbn [mbind res_bind mret res_ret]. intros [= <-].
    rewrite rjust_length, (comprehension_length _ _ _ Hbars).
    rewrite (comprehension_length _ _ _ Hzs). lia.
Qed.

(** C5: after any sequence of pushes on a buffer of capacity [C], a
    text that [render] returns has exactly [C] glyphs; and when the
    pushed samples are non-negative, [render] does return a text: for
    an empty buffer a placeholder of [C] glyphs, otherwise the bars of
    the samples preceded by the lowest glyph as often as samples are
    missing. *)
Theorem C5_render_length (C : nat) (values : list Q) (rand : nat → nat) :
  let bars_of := push_all values (init C) in
  (∀ spark, render rand bars_of = Ok spark → length spark = C)
  ∧ (Forall (λ v, 0 <= v)%Q values →
     ∃ spark, render rand bars_of = Ok spark
       ∧ length spark = C
       ∧ (samples bars_of ≠ [] →
          ∃ bars, length bars = length (samples bars_of)
            ∧ spark = replicate (C - length (samples bars_of)) lowest ++ bars)).
Proof.
  intros b. split.
  - intros spark Hspark.
    destruct (push_all_invariant (λ _, True) values (init C))
      as (Hcap & Hwithin & _);
      [unfold within_capacity; cbn; lia | done | by apply Forall_true |].
    fold b in Hcap, Hwithin. cbn in Hcap. rewrite <- Hcap.
    by eapply render_Ok_length.
  - intros Hvalues.
    destruct (push_all_invariant (λ v, 0 <= v)%Q values (init C))
      as (Hcap & Hwithin & Hpos); [unfold within_capacity; cbn; lia|done..|].
    fold b in Hcap, Hwithin, Hpos. cbn in Hcap.
    unfold within_capacity in Hwithin.
    destruct (samples b) as [|v l] eqn:Hs.
    + destruct (render_empty rand b Hs) as (spark & Hspark & Hlen).
      exists spark. split; [done|]. split; [lia | done].
    + destruct (render_samples rand b) as (bars & Hlen & Hrender).
      { by rewrite Hs. }
      { by rewrite Hs. }
      rewrite Hs in Hlen, Hrender. eexists. split; [exact Hrender|]. split.
      * rewrite length_app, length_replicate, Hlen, <- Hcap. lia.
      * intros _. exists bars. by rewrite Hcap.
Qed.

Lemma render_raises (rand : nat → nat) (b : AnalyzerBars) (e : exn) :
  render rand b = Raise e → e = IndexError.
Proof.
  unfold render. destruct (samples b) as [|v l] eqn:Hs.
  - intros Hraise. apply comprehension_raises in Hraise as (i & _ & Hi).
    unfold choice in Hi. cbn [take blocks] in Hi. by eapply index_raises.
  - destruct (max_sample (v :: l)) as [m|e'] eqn:Hm; cbn [mbind res_bind].
    2:{ unfold max_sample in Hm. cbn in Hm. by destruct (Qeq_bool _ _). }
    apply max_sample_nonzero in Hm.
    destruct (comprehension (normalize m) (v :: l)) as [zs|e'] eqn:Hzs.
    + cbn [mbind res_bind].
      destruct (comprehension (index blocks) zs) as [bars|e'] eqn:Hbars.
      * by cbn.
      * cbn. intros [= <-].
        apply comprehension_raises in Hbars as (z & _ & Hz).
        by eapply index_raises.
    + cbn. intros [= <-].
      apply comprehension_raises in Hzs as (x & _ & Hx).
      unfold normalize, div in Hx.
      destruct (Qeq_bool m 0) eqn:Hz; [|done].
      by apply Qeq_bool_iff in Hz.
Qed.

Lemma render_all_zero (rand : nat → nat) (b : AnalyzerBars) :
  samples b ≠ [] → Forall (λ v, v == 0)%Q (samples b) →
  max_sample (samples b) = Ok 1%Q
  ∧ render rand b
    = Ok (replicate (capacity b `max` length (samples b)) lowest).
Proof.
  intros Hne Hzero.
  assert (max_sample (samples b) = Ok 1%Q) as Hmax.
  { destruct (samples b) as [|v l]; [done|].
    apply Forall_cons in Hzero as [Hv Hl]. unfold max_sample. cbn.
    rewrite (max_from_all_zero v l Hv Hl).
    by apply Qeq_bool_iff in Hv as ->. }
  split; [done|]. unfold render. rewrite Hmax.
  destruct (samples b) as [|v l] eqn:Hs; [done|]. rewrite <- Hs in *.
  cbn [mbind res_bind].
  rewrite (comprehension_constant (normalize 1) (samples b) 0).
  2:{ eapply Forall_impl; [exact Hzero|]. intros x Hx. by apply normalize_zero. }
  cbn [mbind res_bind].
  rewrite (comprehension_constant (index blocks) _ lowest).
  2:{ by apply Forall_replicate. }
  change (index blocks 0) with (Ok lowest).
  cbn [mbind res_bind mret res_ret]. unfold rjust.
  rewrite !length_replicate, <- replicate_add. do 2 f_equal. lia.
Qed.

(** C6: rendering a buffer that holds samples never divides by zero:
    the divisor [max(samples) or 1] is not zero and [render] does not
    raise [ZeroDivisionError]; when all samples are zero the divisor is
    1 and every position of the text is the lowest glyph. *)
Theorem C6_render_never_divides_by_zero (rand : nat → nat) (b : AnalyzerBars) :
  samples b ≠ [] →
  (∃ m, max_sample (samples b) = Ok m ∧ ¬ (m == 0)%Q)
  ∧ render rand b ≠ Raise ZeroDivisionError
  ∧ (Forall (λ v, v == 0)%Q (samples b) →
     max_sample (samples b) = Ok 1%Q
     ∧ render rand b
       = Ok (replicate (capacity b `max` length (samples b)) lowest)).
Proof.
  intros Hne. split; [|split].
  - destruct (samples b) as [|v l]; [done|].
    destruct (max_sample (v :: l)) as [m|e] eqn:Hm.
    + exists m. split; [done|]. by eapply max_sample_nonzero.
    + unfold max_sample in Hm. cbn in Hm. by destruct (Qeq_bool _ _).
  - intros Hraise. by apply render_raises in Hraise.
  - by apply render_all_zero.
Qed.

End GaugesFacts.

(** ** The measurement engine *)

Section EngineFacts.
Context `{RT : PyRuntime}.
Import Engine.

Lemma div_nonzero (x y : Q) : ¬ (y == 0)%Q → div x y = Ok (x / y)%Q.
Proof.
  intros Hy. unfold div. destruct (Qeq_bool y 0) eqn:Hz; [|done].
  by apply Qeq_bool_iff in Hz.
Qed.

Lemma positive_nonzero (y : Q) : Qle_bool y 0 = false → ¬ (y == 0)%Q.
Proof.
  intros Hle Hz. assert (Qle_bool y 0 = true); [|congruence].
  apply Qle_bool_iff. rewrite Hz. apply Qle_refl.
Qed.

Lemma million_nonzero : ¬ (1000000 == 0)%Q.
Proof. unfold Qeq. cbn. lia. Qed.

Lemma download_callback_step (report : Q * Q * Q) (s : state) :
  download_callback report s =
  match sample_of report with
  | None => (Ok (), s)
  | Some mbps =>
      (Ok (), {| _cancelled := _cancelled s;
                 emitted := emitted s ++ [("downloading", mbps_kwarg mbps)];
                 download_speeds := download_speeds s ++ [mbps];
                 upload_speeds := upload_speeds s |})
  end.
Proof.
  destruct report as [[bytes total] elapsed].
  unfold download_callback, sample_of.
  destruct (Qle_bool elapsed 0) eqn:Hle; [done|].
  unfold mbind, M_bind, lift. rewrite div_nonzero by apply million_nonzero.
  by rewrite div_nonzero by by apply positive_nonzero.
Qed.

Lemma upload_callback_step (report : Q * Q * Q) (s : state) :
  upload_callback report s =
  match sample_of report with
  | None => (Ok (), s)
  | Some mbps =>
      (Ok (), {| _cancelled := _cancelled s;
                 emitted := emitted s ++ [("uploading", mbps_kwarg mbps)];
                 download_speeds := download_speeds s;
                 upload_speeds := upload_speeds s ++ [mbps] |})
  end.
Proof.
  destruct report as [[bytes total] elapsed].
  unfold upload_callback, sample_of.
  destruct (Qle_bool elapsed 0) eqn:Hle; [done|].
  unfold mbind, M_bind, lift. rewrite div_nonzero by apply million_nonzero.
  by rewrite div_nonzero by by apply positive_nonzero.
Qed.

Lemma for_each_download (reports : list (Q * Q * Q)) (s : state) :
  ∃ events,
    for_each download_callback reports s
    = (Ok (), {| _cancelled := _cancelled s;
                 emitted := emitted s ++ events;
                 download_speeds := download_speeds s ++ omap sample_of reports;
                 upload_speeds := upload_speeds s |}).
Proof.
  revert s. induction reports as [|report reports IH]; intros s; cbn.
  - exists []. rewrite !app_nil_r. by destruct s.
  - unfold mbind, M_bind. rewrite download_callback_step.
    destruct (sample_of report) as [mbps|].
    + destruct (IH {| _cancelled := _cancelled s;
                      emitted := emitted s ++ [("downloading", mbps_kwarg mbps)];
                      download_speeds := download_speeds s ++ [mbps];
                      upload_speeds := upload_speeds s |}) as [events ->].
      cbn. eexists. by rewrite <- !app_assoc.
    + destruct (IH s) as [events ->]. by eexists.
Qed.

Lemma for_each_upload (reports : list (Q * Q * Q)) (s : state) :
  ∃ events,
    for_each upload_callback reports s
    = (Ok (), {| _cancelled := _cancelled s;
                 emitted := emitted s ++ events;
                 download_speeds := download_speeds s;
                 upload_speeds := upload_speeds s ++ omap sample_of reports |}).
Proof.
  revert s. induction reports as [|report reports IH]; intros s; cbn.
  - exists []. rewrite !app_nil_r. by destruct s.
  - unfold mbind, M_bind. rewrite upload_callback_step.
    destruct (sample_of report) as [mbps|].
    + destruct (IH {| _cancelled := _cancelled s;
                      emitted := emitted s ++ [("uploading", mbps_kwarg mbps)];
                      download_speeds := download_speeds s;
                      upload_speeds := upload_speeds s ++ [mbps] |}) as [events ->].
      cbn. eexists. by rewrite <- !app_assoc.
    + destruct (IH s) as [events ->]. by eexists.
Qed.

(** The outcome of a run, stage by stage. *)
Lemma run_blocking_outcome (w : Workload) (now : datetime) (flag : bool) :
  (_run_blocking w now (fresh flag)).1 =
  match best_server w with
  | Raise e => Raise e
  | Ok _ =>
      if flag_after w Ping then Raise CancelledError else
      match download_outcome w with
      | Raise e => Raise e
      | Ok _ =>
          if flag_after w Download then Raise CancelledError else
          match upload_outcome w with
          | Raise e => Raise e
          | Ok _ =>
              if flag_after w Upload then Raise CancelledError else
              build_result (results_dict w)
                (omap sample_of (download_reports w))
                (omap sample_of (upload_reports w)) now
          end
      end
  end.
Proof.
  unfold _run_blocking, flag_after, interleave, fresh.
  destruct w as [best dreports doutcome ureports uoutcome results cancels].
  cbn [best_server download_reports download_outcome upload_reports
       upload_outcome results_dict cancel_during].
  unfold mbind, M_bind, mret, M_ret, set_cancelled, emit, lift,
    check_cancelled, clear_speeds, cancel, set_cancelled, get_state.
  destruct best as [b|e]; [|by destruct (cancels Discovery)].
  destruct (cancels Discovery); [done|].
  destruct (cancels Ping); [done|].
  cbn [_cancelled emitted download_speeds upload_speeds orb].
  match goal with
  | |- context [for_each download_callback dreports ?s] =>
      destruct (for_each_download dreports s) as [devents ->]
  end.
  destruct doutcome as [[]|e]; [|by destruct (cancels Download)].
  destruct (cancels Download); [done|].
  cbn [_cancelled emitted download_speeds upload_speeds orb].
  match goal with
  | |- context [for_each upload_callback ureports ?s] =>
      destruct (for_each_upload ureports s) as [uevents ->]
  end.
  destruct uoutcome as [[]|e]; [|by destruct (cancels Upload)].
  by destruct (cancels Upload).
Qed.

Lemma flag_after_monotone (w : Workload) :
  (flag_after w Discovery = true → flag_after w Ping = true)
  ∧ (flag_after w Ping = true → flag_after w Download = true)
  ∧ (flag_after w Download = true → flag_after w Upload = true).
Proof.
  unfold flag_after.
  by destruct (cancel_during w Discovery), (cancel_during w Ping),
    (cancel_during w Download).
Qed.

(** C9: when the flag is set at the boundary that ends a stage and the
    external library has completed the stages up to there, the run
    raises [CancelledError]; whenever the flag is set at a boundary the
    run returns no result record.  A progress report with
    [elapsed <= 0] leaves the state as it is (no sample, no event), and
    neither callback ever raises, so no division by zero occurs. *)
Theorem C9_cancellation_and_elapsed_guard
    (w : Workload) (now : datetime) (flag : bool) :
  (∀ st, stages_complete w st → flag_after w st = true →
     (_run_blocking w now (fresh flag)).1 = Raise CancelledError)
  ∧ (∀ st, flag_after w st = true →
       ∀ r, (_run_blocking w now (fresh flag)).1 ≠ Ok r)
  ∧ (∀ bytes total elapsed s, (elapsed <= 0)%Q →
       download_callback (bytes, total, elapsed) s = (Ok (), s)
       ∧ upload_callback (bytes, total, elapsed) s = (Ok (), s))
  ∧ (∀ report s,
       (download_callback report s).1 = Ok ()
       ∧ (upload_callback report s).1 = Ok ()).
Proof.
  destruct (flag_after_monotone w) as (HDP & HPD & HDU).
  split; [|split; [|split]].
  - intros st Hcomplete Hflag. rewrite run_blocking_outcome.
    destruct st; cbn in Hcomplete.
    + destruct Hcomplete as [best ->]. by rewrite (HDP Hflag).
    + destruct Hcomplete as [best ->]. by rewrite Hflag.
    + destruct Hcomplete as ([best ->] & ->).
      rewrite Hflag. by destruct (flag_after w Ping).
    + destruct Hcomplete as ([best ->] & -> & ->).
      rewrite Hflag. by destruct (flag_after w Ping), (flag_after w Download).
  - intros st Hflag r. rewrite run_blocking_outcome.
    assert (flag_after w Upload = true) as HU.
    { destruct st; auto. }
    rewrite HU.
    destruct (best_server w); [|done].
    destruct (flag_after w Ping); [done|].
    destruct (download_outcome w); [|done].
    destruct (flag_after w Download); [done|].
    by destruct (upload_outcome w).
  - intros bytes total elapsed s Hle.
    apply Qle_bool_iff in Hle.
    rewrite download_callback_step, upload_callback_step.
    unfold sample_of. by rewrite Hle.
  - intros report s.
    rewrite download_callback_step, upload_callback_step.
    by destruct (sample_of report).
Qed.

(** A record the run returns is built from the samples the two
    callbacks kept. *)
Lemma run_returns_build_result (w : Workload) (now : datetime) (flag : bool)
    (r : SpeedResult) :
  (_run_blocking w now (fresh flag)).1 = Ok r →
  build_result (results_dict w)
    (omap sample_of (download_reports w))
    (omap sample_of (upload_reports w)) now = Ok r.
Proof.
  rewrite run_blocking_outcome.
  destruct (best_server w); [|done].
  destruct (flag_after w Ping); [done|].
  destruct (download_outcome w); [|done].
  destruct (flag_after w Download); [done|].
  destruct (upload_outcome w); [|done].
  by destruct (flag_after w Upload).
Qed.

(** *** The fallback to the largest sample *)

Lemma max_is_maximum (l : list Q) (m : Q) :
  Gauges.max l = Ok m → m ∈ l ∧ Forall (λ x, x <= m)%Q l.
Proof.
  destruct l as [|x l]; cbn; [done|]. intros [= <-]. split.
  - apply max_from_elem.
  - destruct (max_from_bounds x l) as [Hx Hl]. by constructor.
Qed.

Lemma fallback_nonpositive (mbps : Q) (speeds : list Q) :
  (mbps <= 0)%Q → speeds ≠ [] → fallback mbps speeds = Gauges.max speeds.
Proof.
  intros Hle Hne. unfold fallback.
  apply Qle_bool_iff in Hle as ->. by destruct speeds.
Qed.

Lemma build_result_Ok (results : gmap string pyval) (ds us : list Q)
    (now : datetime) (r : SpeedResult) :
  build_result results ds us now = Ok r →
  ∃ dagg uagg d u,
    as_float (get_or results "download" (PNum 0)) = Ok dagg
    ∧ as_float (get_or results "upload" (PNum 0)) = Ok uagg
    ∧ fallback (dagg / 1000000) ds = Ok d
    ∧ fallback (uagg / 1000000) us = Ok u
    ∧ download_mbps r = PNum d
    ∧ upload_mbps r = PNum u.
Proof.
  unfold build_result.
  destruct (as_float (get_or results "download" _)) as [dagg|] eqn:Hd;
    [|done].
  cbn [mbind res_bind]. rewrite div_nonzero by apply million_nonzero.
  cbn [mbind res_bind].
  destruct (as_float (get_or results "upload" _)) as [uagg|] eqn:Hu;
    [|done].
  cbn [mbind res_bind]. rewrite div_nonzero by apply million_nonzero.
  cbn [mbind res_bind].
  destruct (synthesize_server_name _); [|done]. cbn [mbind res_bind].
  destruct (client_isp results); [|done]. cbn [mbind res_bind].
  destruct (fallback (dagg / 1000000) ds) as [d|] eqn:Hfd; [|done].
  cbn [mbind res_bind].
  destruct (fallback (uagg / 1000000) us) as [u|] eqn:Hfu; [|done].
  cbn [mbind res_bind mret res_ret]. intros [= <-].
  by exists dagg, uagg, d, u.
Qed.

Lemma megabits_nonpositive (agg : Q) : (agg <= 0)%Q → (agg / 1000000 <= 0)%Q.
Proof.
  intros Hle. unfold Qdiv.
  rewrite <- (Qmult_0_l (/ 1000000)). by apply Qmult_le_compat_r.
Qed.

(** C7: in the result record built at the end of a run from the
    results of the external library and the sample lists [ds] and [us]
    (by [run_returns_build_result], the samples the callbacks kept),
    when the aggregate download figure is at most 0 and [ds] is not
    empty, [download_mbps] is [max] of [ds]: one of the samples, and at
    least as large as each of them.  The same holds for uploads. *)
Theorem C7_fallback_to_max_sample (results : gmap string pyval)
    (ds us : list Q) (now : datetime) (r : SpeedResult) :
  build_result results ds us now = Ok r →
  (∀ agg,
     as_float (get_or results "download" (PNum 0)) = Ok agg →
     (agg <= 0)%Q → ds ≠ [] →
     ∃ m, Gauges.max ds = Ok m ∧ download_mbps r = PNum m
       ∧ m ∈ ds ∧ Forall (λ x, x <= m)%Q ds)
  ∧ (∀ agg,
       as_float (get_or results "upload" (PNum 0)) = Ok agg →
       (agg <= 0)%Q → us ≠ [] →
       ∃ m, Gauges.max us = Ok m ∧ upload_mbps r = PNum m
         ∧ m ∈ us ∧ Forall (λ x, x <= m)%Q us).
Proof.
  intros Hr.
  destruct (build_result_Ok _ _ _ _ _ Hr)
    as (dagg & uagg & d & u & Hd & Hu & Hfd & Hfu & -> & ->).
  split; intros agg Hagg Hle Hne.
  - rewrite Hd in Hagg. injection Hagg as ->.
    rewrite fallback_nonpositive in Hfd
      by (done || by apply megabits_nonpositive).
    exists d. split; [done|]. split; [done|]. by apply max_is_maximum.
  - rewrite Hu in Hagg. injection Hagg as ->.
    rewrite fallback_nonpositive in Hfu
      by (done || by apply megabits_nonpositive).
    exists u. split; [done|]. split; [done|]. by apply max_is_maximum.
Qed.

(** *** The server name *)

(** C8 (as the code has it): an empty server record gives no name; a
    record that is not empty, whose sponsor, city ([name]) and country
    are strings or missing, gives
    [strip(sponsor + " (" + location + ")")], where the location is the
    city and the country that are present and not empty, joined by
    [", "].  A missing city or country leaves no comma behind; when
    both are missing the parentheses stay, with nothing between them. *)
Theorem C8_server_name_synthesis :
  synthesize_server_name (PDict ∅) = Ok PNone
  ∧ ∀ (d : gmap string pyval) (sponsor city country : option string),
      d ≠ ∅ →
      d !! "sponsor" = PStr <$> sponsor →
      d !! "name" = PStr <$> city →
      d !! "country" = PStr <$> country →
      synthesize_server_name (PDict d)
      = Ok (PStr (strip (default "" sponsor +:+ " ("
                         +:+ location_of city country +:+ ")"))).
Proof.
  split; [done|].
  intros d sponsor city country Hne Hsponsor Hcity Hcountry.
  unfold synthesize_server_name, truthy.
  rewrite bool_decide_eq_false_2 by done. cbn [negb].
  unfold get, get_or. rewrite Hsponsor, Hcity, Hcountry.
  destruct sponsor as [sp|], city as [[|a city]|], country as [[|b country]|];
    reflexivity.
Qed.

End EngineFacts.

(** ** The dashboard *)

Section DashboardFacts.
Context `{RT : PyRuntime}.
Import Dashboard.

Lemma save_result_total (r : SpeedResult) (file : option text) :
  ∃ file', save_result r file = Ok file'.
Proof.
  unfold save_result. destruct (load_history_total file) as [h ->].
  by eexists.
Qed.

(** C1 (the code on the claim's input): folding the six events and a
    successful completion ends in status [COMPLETE] with the result
    set, but every message sets [current_speed] and pushes a sample,
    also one without a speed payload, whose speed is 0.0: the final
    [current_speed] is 0.0, not 20, and the buffer holds
    [0, 0, 50, 80, 20, 0], not [50, 80, 20].  A message with a payload
    other than 0 sets [current_speed] to it and pushes it. *)
Theorem C1_dashboard_six_events (r : SpeedResult) (file : option text) :
  (∃ d, run_test Examples.six_events (Ok r) (init file) = Ok d
     ∧ status_text d = "COMPLETE"
     ∧ running d = false
     ∧ result d = Some r
     ∧ current_speed d = 0%Q
     ∧ Gauges.samples (analyzer d) = [0; 0; 50; 80; 20; 0]%Q)
  ∧ (∀ status d,
       current_speed (callback (status, Engine.no_kwargs) d) = 0%Q
       ∧ analyzer (callback (status, Engine.no_kwargs) d)
         = Gauges.push 0 (analyzer d))
  ∧ (∀ status mbps d, ¬ (mbps == 0)%Q →
       current_speed (callback (status, Engine.mbps_kwarg mbps) d) = mbps
       ∧ analyzer (callback (status, Engine.mbps_kwarg mbps) d)
         = Gauges.push mbps (analyzer d)).
Proof.
  split; [|split; [done|]].
  2:{ intros status mbps d Hmbps. cbn.
      destruct (Qeq_bool mbps 0) eqn:Hz; [|done].
      by apply Qeq_bool_iff in Hz. }
  unfold run_test, run_test_end.
  destruct (save_result_total r
              (history_file (foldl (λ d ev, callback ev d)
                                   (run_test_begin (init file))
                                   Examples.six_events)))
    as [file' ->].
  eexists. split; [reflexivity|]. by repeat split.
Qed.

End DashboardFacts.

(** ** The naive datetimes of the concrete runtime *)

Section NaiveFacts.
Import Naive.

Lemma append_assoc (a b c : string) : (a +:+ b) +:+ c = a +:+ (b +:+ c).
Proof.
  induction a as [|x a IH]; [done|].
  change (String x ((a +:+ b) +:+ c) = String x (a +:+ b +:+ c)).
  by rewrite IH.
Qed.

Lemma digit_value_digit (n : N) : digit_value (digit n) = Some (n mod 10)%N.
Proof.
  unfold digit_value, digit.
  assert (n mod 10 < 10)%N as Hlt by by apply N.mod_upper_bound.
  generalize dependent (n mod 10)%N. intros r Hr.
  rewrite N_ascii_embedding by lia.
  replace ((48 <=? 48 + r)%N) with true by (symmetry; apply N.leb_le; lia).
  replace ((48 + r <=? 57)%N) with true by (symmetry; apply N.leb_le; lia).
  cbn [andb]. f_equal. lia.
Qed.

Lemma number_zero_padded (w k : nat) (acc n : N) (rest : string) :
  number (w + k) acc (zero_padded w n +:+ rest)
  = number k (acc * 10 ^ N.of_nat w + n mod 10 ^ N.of_nat w)%N rest.
Proof.
  revert k acc n rest. induction w as [|w IH]; intros k acc n rest.
  - change (number k acc rest = number k (acc * 1 + n mod 1)%N rest).
    f_equal. rewrite N.mod_1_r. lia.
  - change (zero_padded (S w) n)
      with (zero_padded w (n / 10) +:+ String (digit n) "").
    rewrite append_assoc.
    change (String (digit n) "" +:+ rest) with (String (digit n) rest).
    replace (S w + k)%nat with (w + S k)%nat by lia.
    rewrite IH. cbn [number]. rewrite digit_value_digit. cbn [mbind option_bind].
    f_equal. rewrite Nat2N.inj_succ, N.pow_succ_r'.
    rewrite (N.Div0.mod_mul_r n 10).
    generalize (n mod 10)%N ((n / 10) mod 10 ^ N.of_nat w)%N (10 ^ N.of_nat w)%N.
    intros. lia.
Qed.

Lemma number_padded (w : nat) (n : N) (rest : string) :
  (n < 10 ^ N.of_nat w)%N →
  number w 0 (zero_padded w n +:+ rest) = Some (n, rest).
Proof.
  intros Hn. rewrite <- (Nat.add_0_r w) at 1. rewrite number_zero_padded.
  cbn [number]. rewrite N.mod_small by done. do 2 f_equal. 
Qed.
Lemma append_empty_r (a : string) : a +:+ "" = a.
Proof.
  induction a as [|x a IH]; [done|].
  change (String x (a +:+ "") = String x a). by rewrite IH.
Qed.

Lemma expect_head (c : ascii) (rest : string) :
  expect c (String c "" +:+ rest) = Some rest.
Proof.
  change (String c "" +:+ rest) with (String c rest).
  unfold expect. by rewrite Ascii.eqb_refl.
Qed.

Lemma days_in_month_le (y m : N) : (days_in_month y m <= 31)%N.
Proof.
  unfold days_in_month.
  repeat match goal with
         | |- context [match ?x with _ => _ end] => destruct x
         end; lia.
Qed.

Lemma fraction_microsecond (us : N) :
  (us < 1000000)%N →
  fraction (if (us =? 0)%N then "" else "." +:+ zero_padded 6 us) = Some us.
Proof.
  intros Hus. destruct (N.eqb_spec us 0) as [->|Hne]; [done|].
  change ("." +:+ zero_padded 6 us) with (String "." (zero_padded 6 us)).
  cbn [fraction expect]. rewrite Ascii.eqb_refl. cbn [mbind option_bind].
  rewrite <- (append_empty_r (zero_padded 6 us)).
  by rewrite number_padded by (cbn; lia).
Qed.

(** The parser reads back what the printer prints for a valid naive
    datetime. *)
Lemma fromisoformat_isoformat (t : naive) :
  valid t = true → fromisoformat (isoformat t) = Some t.
Proof.
  intros Hvalid. pose proof Hvalid as Hv.
  destruct t as [y mo d h mi sec us]. unfold valid in Hv. cbn in Hv.
  repeat (apply andb_prop in Hv as [Hv ?]).
  repeat match goal with
         | H : (_ <=? _)%N = true |- _ => apply N.leb_le in H
         | H : (_ <? _)%N = true |- _ => apply N.ltb_lt in H
         end.
  pose proof (days_in_month_le y mo).
  unfold fromisoformat, isoformat.
  cbn [year month day hour minute second microsecond].
  rewrite number_padded by (cbn; lia). cbn [mbind option_bind].
  rewrite expect_head. cbn [mbind option_bind].
  rewrite number_padded by (cbn; lia). cbn [mbind option_bind].
  rewrite expect_head. cbn [mbind option_bind].
  rewrite number_padded by (cbn; lia). cbn [mbind option_bind].
  rewrite expect_head. cbn [mbind option_bind].
  rewrite number_padded by (cbn; lia). cbn [mbind option_bind].
  rewrite expect_head. cbn [mbind option_bind].
  rewrite number_padded by (cbn; lia). cbn [mbind option_bind].
  rewrite expect_head. cbn [mbind option_bind].
  rewrite number_padded by (cbn; lia). cbn [mbind option_bind].
  rewrite fraction_microsecond by done. cbn [mbind option_bind].
  by rewrite Hvalid.
Qed.

End NaiveFacts.

(** ** The statements at concrete inputs *)

Section Instances.
Import Examples.

Lemma concrete_json_inverse (v : pyval) :
  @json_loads concrete_runtime (@json_dumps concrete_runtime v) = Some v.
Proof. reflexivity. Defined.

(** In the concrete runtime every record with a valid timestamp
    survives printing and parsing. *)
Lemma concrete_printable (r : @SpeedResult concrete_runtime) :
  Naive.valid (timestamp r) = true → printable r.
Proof. apply fromisoformat_isoformat. Qed.

(** C2 at a record whose optional fields are all absent. *)
Lemma C2_from_dict_to_dict_witness :
  from_dict (to_dict (result_at 7)) = Ok (result_at 7).
Proof. apply C2_from_dict_to_dict. reflexivity. Defined.

(** C10 at a dictionary that holds the timestamp only, and at the empty
    dictionary. *)
Lemma C10_from_dict_defaults_witness :
  (∃ r, @from_dict concrete_runtime
          {[ "timestamp" := PStr "2024-02-29T13:05:09" ]} = Ok r
     ∧ ping_ms r = PNum 0 ∧ download_mbps r = PNum 0
     ∧ upload_mbps r = PNum 0 ∧ jitter_ms r = PNone
     ∧ packet_loss r = PNone ∧ server_name r = PNone ∧ isp r = PNone)
  ∧ @from_dict concrete_runtime ∅ = Raise KeyError.
Proof.
  split.
  - destruct (proj2 (@C10_from_dict_defaults concrete_runtime
                       {[ "timestamp" := PStr "2024-02-29T13:05:09" ]})
                "2024-02-29T13:05:09"
                {| Naive.year := 2024; Naive.month := 2; Naive.day := 29;
                   Naive.hour := 13; Naive.minute := 5; Naive.second := 9;
                   Naive.microsecond := 0 |})
      as (r & Hr & _ & Hfields); [reflexivity | reflexivity |].
    exists r. split; [exact Hr | exact Hfields].
  - apply (proj1 (@C10_from_dict_defaults concrete_runtime ∅)). reflexivity.
Defined.

(** C3 at fifteen records: the file written holds ten dicts, those of
    the last ten records, and the store reads back as those records. *)
Lemma C3_save_result_keeps_last_10_witness :
  ∃ txt items,
    @save_all concrete_runtime fifteen_results None = Ok (Some txt)
    ∧ @json_loads concrete_runtime txt = Some (PList items)
    ∧ items = (λ entry, PDict (@to_dict concrete_runtime entry))
                <$> drop 5 fifteen_results
    ∧ length items = 10%nat
    ∧ @load_history concrete_runtime (Some txt)
      = Ok (drop 5 fifteen_results).
Proof.
  apply (proj1 (proj2 (@C3_save_result_keeps_last_10 concrete_runtime
                         concrete_json_inverse))).
  - reflexivity.
  - repeat constructor.
Defined.

(** C4 at a file that is not JSON. *)
Lemma C4_load_history_degrades_witness :
  @load_history concrete_runtime (Some (Garbage "{")) = Ok [].
Proof.
  apply (proj2 (proj2 (@C4_load_history_degrades concrete_runtime
                         (Some (Garbage "{")))) (Garbage "{")).
  - reflexivity.
  - left. reflexivity.
Defined.

(** C5 at capacity 5 after three pushes. *)
Lemma C5_render_length_witness :
  ∃ spark,
    Gauges.render (λ i, i) (Gauges.push_all [0; 3; 6]%Q (Gauges.init 5))
    = Ok spark
    ∧ length spark = 5%nat.
Proof.
  destruct (proj2 (C5_render_length 5 [0; 3; 6]%Q (λ i, i)))
    as (spark & Hr & Hl & _).
  - repeat constructor; unfold Qle; simpl; lia.
  - exists spark. split; [exact Hr | exact Hl].
Defined.

(** C6 at a buffer of three zeros. *)
Lemma C6_render_never_divides_by_zero_witness :
  Gauges.render (λ i, i) {| Gauges.capacity := 5; Gauges.samples := [0; 0; 0]%Q |}
  = Ok (replicate 5 Gauges.lowest).
Proof.
  apply (C6_render_never_divides_by_zero (λ i, i)
           {| Gauges.capacity := 5; Gauges.samples := [0; 0; 0]%Q |}).
  - discriminate.
  - repeat constructor.
Defined.

(** C7 at the samples [50, 80] with an aggregate of 0. *)
Lemma C7_fallback_to_max_sample_witness :
  ∃ m, Gauges.max [50; 80]%Q = Ok m
    ∧ PNum 80 = PNum m
    ∧ m ∈ [50; 80]%Q
    ∧ Forall (λ x, x <= m)%Q [50; 80]%Q.
Proof.
  assert (@Engine.build_result concrete_runtime
            {[ "download" := PNum 0 ]} [50; 80]%Q [] (timestamp_at 0)
          = Ok (@Build_SpeedResult concrete_runtime
                  (PNum 0) PNone (PNum 80) (PNum (0 # 1000000)) PNone
                  PNone PNone (timestamp_at 0))) as Hrun by reflexivity.
  apply (proj1 (C7_fallback_to_max_sample _ _ _ _ _ Hrun) 0%Q).
  - reflexivity.
  - unfold Qle; simpl; lia.
  - discriminate.
Defined.

(** C8 (amended) at a record with sponsor, city and country. *)
Lemma C8_server_name_synthesis_witness :
  @Engine.synthesize_server_name concrete_runtime (PDict full_server)
  = Ok (PStr "Acme (Paris, France)").
Proof.
  apply (proj2 (@C8_server_name_synthesis concrete_runtime) full_server
           (Some "Acme") (Some "Paris") (Some "France")).
  - discriminate.
  - reflexivity.
  - reflexivity.
  - reflexivity.
Defined.

(** C8 as stated fails: with the city and the country missing, the name
    has empty parentheses. *)
Lemma C8_empty_parentheses_counterexample :
  @Engine.synthesize_server_name concrete_runtime (PDict sponsor_only)
  = Ok (PStr "Acme ()")
  ∧ contains "()" "Acme ()" = true.
Proof. split; reflexivity. Qed.

(** C9 at a run cancelled during the download. *)
Lemma C9_cancellation_and_elapsed_guard_witness :
  (@Engine._run_blocking concrete_runtime cancelled_download
     (timestamp_at 0) (Engine.fresh false)).1
  = Raise CancelledError.
Proof.
  apply (proj1 (@C9_cancellation_and_elapsed_guard concrete_runtime
                  cancelled_download (timestamp_at 0) false)
           Engine.Download).
  - split; [by eexists | reflexivity].
  - reflexivity.
Defined.

End Instances.

(** * Further properties *)

(** ** The run of the engine, event by event *)

Section RunFacts.
Context `{RT : PyRuntime}.
Import Engine.

Lemma for_each_download_events (reports : list (Q * Q * Q)) (s : state) :
  for_each download_callback reports s
  = (Ok (), {| _cancelled := _cancelled s;
               emitted := emitted s ++ (downloading <$> omap sample_of reports);
               download_speeds := download_speeds s ++ omap sample_of reports;
               upload_speeds := upload_speeds s |}).
Proof.
  revert s. induction reports as [|report reports IH]; intros s; cbn.
  - rewrite !app_nil_r. by destruct s.
  - unfold mbind, M_bind. rewrite download_callback_step.
    destruct (sample_of report) as [mbps|]; rewrite IH; cbn; [|done].
    by rewrite <- !app_assoc.
Qed.

Lemma for_each_upload_events (reports : list (Q * Q * Q)) (s : state) :
  for_each upload_callback reports s
  = (Ok (), {| _cancelled := _cancelled s;
               emitted := emitted s ++ (uploading <$> omap sample_of reports);
               download_speeds := download_speeds s;
               upload_speeds := upload_speeds s ++ omap sample_of reports |}).
Proof.
  revert s. induction reports as [|report reports IH]; intros s; cbn.
  - rewrite !app_nil_r. by destruct s.
  - unfold mbind, M_bind. rewrite upload_callback_step.
    destruct (sample_of report) as [mbps|]; rewrite IH; cbn; [|done].
    by rewrite <- !app_assoc.
Qed.

(** The run in full: outcome, flag, events and samples. *)
Lemma run_blocking_summary (w : Workload) (now : datetime) (flag : bool) :
  _run_blocking w now (fresh flag) = run_summary w now.
Proof.
  unfold _run_blocking, run_summary, interleave, fresh, download_events,
    upload_events.
  destruct w as [best dreports doutcome ureports uoutcome results cancels].
  cbn [best_server download_reports download_outcome upload_reports
       upload_outcome results_dict cancel_during].
  unfold mbind, M_bind, mret, M_ret, set_cancelled, emit, lift,
    check_cancelled, clear_speeds, cancel, set_cancelled, get_state.
  destruct best as [b|e]; [|by destruct (cancels Discovery)].
  destruct (cancels Discovery); [done|].
  destruct (cancels Ping); [done|].
  cbn [_cancelled emitted download_speeds upload_speeds].
  rewrite for_each_download_events.
  cbn [_cancelled emitted download_speeds upload_speeds].
  destruct doutcome as [[]|e].
  2:{ destruct (cancels Download); cbn; by rewrite <- ?app_assoc. }
  destruct (cancels Download).
  { cbn. by rewrite <- ?app_assoc. }
  cbn [_cancelled emitted download_speeds upload_speeds].
  rewrite for_each_upload_events.
  cbn [_cancelled emitted download_speeds upload_speeds].
  destruct uoutcome as [[]|e].
  2:{ destruct (cancels Upload); cbn; by rewrite <- ?app_assoc. }
  destruct (cancels Upload); cbn; by rewrite <- ?app_assoc.
Qed.

(** X1: [_run_blocking] resets the flag first: a [cancel()] issued before
    the run starts is lost, and the outcome, the events and the samples
    of the run do not depend on it. *)
Theorem run_forgets_earlier_cancel (w : Workload) (now : datetime)
    (flag flag' : bool) :
  _run_blocking w now (fresh flag) = _run_blocking w now (fresh flag').
Proof. by rewrite !run_blocking_summary. Qed.

(** X2: An exception of the external library is passed on unchanged: when
    server discovery raises [e] the run raises [e]; when the download
    (upload) raises [e] and no cancellation was seen at an earlier
    boundary, the run raises [e], also when [cancel()] arrived during
    that very stage. *)
Theorem workload_failure_propagates (w : Workload) (now : datetime)
    (flag : bool) (e : exn) :
  (best_server w = Raise e →
     (_run_blocking w now (fresh flag)).1 = Raise e)
  ∧ (stages_complete w Ping → flag_after w Ping = false →
     download_outcome w = Raise e →
     (_run_blocking w now (fresh flag)).1 = Raise e)
  ∧ (stages_complete w Download → flag_after w Download = false →
     upload_outcome w = Raise e →
     (_run_blocking w now (fresh flag)).1 = Raise e).
Proof.
  rewrite run_blocking_outcome. split; [|split].
  - by intros ->.
  - intros [best ->] Hflag ->. by rewrite Hflag.
  - intros ([best ->] & ->) Hflag ->. rewrite Hflag.
    destruct (flag_after_monotone w) as (_ & HPD & _).
    destruct (flag_after w Ping); [|done]. by rewrite HPD in Hflag.
Qed.

Lemma never_cancelled_flags (w : Workload) (st : stage) :
  never_cancelled w → flag_after w st = false.
Proof.
  intros Hnever. unfold flag_after.
  rewrite (Hnever Discovery), (Hnever Ping), (Hnever Download),
    (Hnever Upload). by destruct st.
Qed.

(** X3: A run that passes every stage without a cancellation hands the
    callback exactly [finding_server], [pinging(server)], the download
    start marker and one [downloading] event per kept sample, the
    upload start marker and one [uploading] event per kept sample, and
    [finalizing], in this order; its sample lists are the kept
    samples, and its outcome is the record built from them. *)
Theorem complete_run_trace (w : Workload) (now : datetime) (flag : bool)
    (best : pyval) :
  best_server w = Ok best →
  download_outcome w = Ok () →
  upload_outcome w = Ok () →
  never_cancelled w →
  let run := _run_blocking w now (fresh flag) in
  emitted run.2 = full_trace best w
  ∧ download_speeds run.2 = omap sample_of (download_reports w)
  ∧ upload_speeds run.2 = omap sample_of (upload_reports w)
  ∧ run.1 = build_result (results_dict w) (download_speeds run.2)
              (upload_speeds run.2) now.
Proof.
  intros Hbest Hdown Hup Hnever. cbn zeta.
  rewrite run_blocking_summary. unfold run_summary.
  rewrite Hbest, Hdown, Hup.
  rewrite (Hnever Discovery), (Hnever Ping), (Hnever Download),
    (Hnever Upload).
  cbn [fst snd emitted download_speeds upload_speeds]. unfold full_trace.
  by rewrite <- !app_assoc.
Qed.

Lemma status_not_finalizing (events : list event) :
  Forall (λ ev, ev.1 ≠ "finalizing") events → finalizing ∉ events.
Proof.
  intros Hall Hin. rewrite Forall_forall in Hall.
  by apply (Hall _ Hin).
Qed.

Lemma stage_events_not_finalizing (w : Workload) :
  Forall (λ ev : event, ev.1 ≠ "finalizing") (download_events w)
  ∧ Forall (λ ev : event, ev.1 ≠ "finalizing") (upload_events w).
Proof.
  unfold download_events, upload_events. split.
  - constructor; [done|]. apply Forall_fmap, Forall_true. by intros x.
  - constructor; [done|]. apply Forall_fmap, Forall_true. by intros x.
Qed.

(** X4: Every run starts with [finding_server]; [finalizing] is emitted
    exactly when the external library completes all stages and no
    boundary sees the flag set; and a run that returns a record has
    emitted [finalizing] last. *)
Theorem finalizing_marks_the_last_boundary (w : Workload) (now : datetime)
    (flag : bool) :
  let run := _run_blocking w now (fresh flag) in
  (∃ rest, emitted run.2 = finding_server :: rest)
  ∧ (finalizing ∈ emitted run.2
     ↔ stages_complete w Upload ∧ flag_after w Upload = false)
  ∧ (∀ r, run.1 = Ok r → last (emitted run.2) = Some finalizing).
Proof.
  cbn zeta. rewrite run_blocking_summary. unfold run_summary, flag_after.
  destruct (stage_events_not_finalizing w) as [Hdl Hul].
  assert (∀ best,
            Forall (λ ev : event, ev.1 ≠ "finalizing")
                   [finding_server; pinging best]) as Hopen.
  { intros best. by repeat constructor. }
  cbn [stages_complete].
  destruct (best_server w) as [best|e] eqn:Hbest.
  2:{ split; [by eexists|]. split; [|done]. split.
      - intros Hin. by apply list_elem_of_singleton in Hin.
      - by intros [([best [=]] & _) _]. }
  destruct (cancel_during w Discovery).
  { split; [by eexists|]. split; [|done]. split.
    - intros Hin. by apply list_elem_of_singleton in Hin.
    - intros [_ Hflag]. by cbn in Hflag. }
  destruct (cancel_during w Ping).
  { split; [by eexists|]. split; [|done]. split.
    - intros Hin. exfalso. revert Hin. apply status_not_finalizing, Hopen.
    - intros [_ Hflag]. by cbn in Hflag. }
  destruct (download_outcome w) as [[]|e].
  2:{ split; [by eexists|]. split; [|done]. split.
      - intros Hin. exfalso. revert Hin. apply status_not_finalizing.
        by apply Forall_app.
      - by intros [(_ & [=] & _) _]. }
  destruct (cancel_during w Download).
  { split; [by eexists|]. split; [|done]. split.
    - intros Hin. exfalso. revert Hin. apply status_not_finalizing.
      by apply Forall_app.
    - intros [_ Hflag]. by cbn in Hflag. }
  destruct (upload_outcome w) as [[]|e].
  2:{ split; [by eexists|]. split; [|done]. split.
      - intros Hin. exfalso. revert Hin. apply status_not_finalizing.
        apply Forall_app. split; [|done]. by apply Forall_app.
      - by intros [(_ & _ & [=]) _]. }
  destruct (cancel_during w Upload).
  { split; [by eexists|]. split; [|done]. split.
    - intros Hin. exfalso. revert Hin. apply status_not_finalizing.
      apply Forall_app. split; [|done]. by apply Forall_app.
    - intros [_ Hflag]. by cbn in Hflag. }
  split; [by eexists|]. split.
  - split; [|intros _; cbn [snd emitted]; apply elem_of_app; right; by left].
    intros _. split; [|done]. by split; [eexists|].
  - intros r _. cbn [snd emitted]. by rewrite last_snoc.
Qed.

End RunFacts.

(** ** The record a run builds *)

Section BuildFacts.
Context `{RT : PyRuntime}.
Import Engine.

Lemma sample_of_nonneg (report : Q * Q * Q) (x : Q) :
  (0 <= report.1.1)%Q → sample_of report = Some x → (0 <= x)%Q.
Proof.
  destruct report as [[bytes total] elapsed]. cbn [fst]. intros Hbytes.
  unfold sample_of. destruct (Qle_bool elapsed 0) eqn:Hle; [done|].
  intros [= <-].
  assert (0 < elapsed)%Q as Hpos.
  { apply Qnot_le_lt. intros Hc. apply Qle_bool_iff in Hc. congruence. }
  unfold Qdiv. repeat apply Qmult_le_0_compat; try done.
  by apply Qinv_le_0_compat, Qlt_le_weak.
Qed.

Lemma samples_nonneg (reports : list (Q * Q * Q)) :
  counters_nonneg reports → Forall (λ x, 0 <= x)%Q (omap sample_of reports).
Proof.
  intros Hreports. apply Forall_forall. intros x Hx.
  apply list_elem_of_omap in Hx as (report & Hin & Hsample).
  unfold counters_nonneg in Hreports. rewrite Forall_forall in Hreports.
  by eapply sample_of_nonneg; [apply Hreports|].
Qed.

Lemma fallback_cases (mbps : Q) (speeds : list Q) (d : Q) :
  fallback mbps speeds = Ok d →
  d = mbps ∨ ((mbps <= 0)%Q ∧ Gauges.max speeds = Ok d).
Proof.
  unfold fallback. destruct (Qle_bool mbps 0) eqn:Hle; cbn [andb].
  - destruct speeds as [|x l]; [intros [= <-]; by left|].
    intros Hmax. right. split; [by apply Qle_bool_iff | done].
  - intros [= <-]. by left.
Qed.

Lemma fallback_positive (mbps : Q) (speeds : list Q) :
  (0 < mbps)%Q → fallback mbps speeds = Ok mbps.
Proof.
  intros Hpos. unfold fallback.
  destruct (Qle_bool mbps 0) eqn:Hle; [|done].
  apply Qle_bool_iff in Hle. by apply Qle_not_lt in Hle.
Qed.

Lemma fallback_no_samples (mbps : Q) : fallback mbps [] = Ok mbps.
Proof. unfold fallback. by rewrite andb_false_r. Qed.

Lemma megabits_nonneg (agg : Q) : (0 <= agg)%Q → (0 <= agg / 1000000)%Q.
Proof.
  intros Hpos. unfold Qdiv. apply Qmult_le_0_compat; [done|].
  by apply Qinv_le_0_compat.
Qed.

(** X5: The test of the fallback is on the megabit figure the code
    computes, not on the aggregate: whenever the quotient
    [results.get("download", 0.0) / 1_000_000] (for upload likewise) comes
    out positive, the record holds that quotient whatever the samples
    are, and when no sample was kept the record holds the quotient
    whatever its sign, so that a figure of 0 or less stays in the
    record. *)
Theorem quotient_kept_unless_fallback (results : gmap string pyval)
    (ds us : list Q) (now : datetime) (r : SpeedResult) :
  build_result results ds us now = Ok r →
  (∀ agg mbps,
     as_float (get_or results "download" (PNum 0)) = Ok agg →
     div agg 1000000 = Ok mbps →
     (0 < mbps)%Q ∨ ds = [] →
     download_mbps r = PNum mbps)
  ∧ (∀ agg mbps,
       as_float (get_or results "upload" (PNum 0)) = Ok agg →
       div agg 1000000 = Ok mbps →
       (0 < mbps)%Q ∨ us = [] →
       upload_mbps r = PNum mbps).
Proof.
  intros Hr.
  destruct (build_result_Ok _ _ _ _ _ Hr)
    as (dagg & uagg & d & u & Hd & Hu & Hfd & Hfu & -> & ->).
  split; intros agg mbps Hagg Hdiv Hcase.
  - rewrite Hd in Hagg. injection Hagg as ->.
    rewrite div_nonzero in Hdiv by apply million_nonzero.
    injection Hdiv as <-.
    destruct Hcase as [Hpos| ->].
    + rewrite fallback_positive in Hfd by done. by injection Hfd as <-.
    + rewrite fallback_no_samples in Hfd. by injection Hfd as <-.
  - rewrite Hu in Hagg. injection Hagg as ->.
    rewrite div_nonzero in Hdiv by apply million_nonzero.
    injection Hdiv as <-.
    destruct Hcase as [Hpos| ->].
    + rewrite fallback_positive in Hfu by done. by injection Hfu as <-.
    + rewrite fallback_no_samples in Hfu. by injection Hfu as <-.
Qed.

Lemma figure_nonneg (results : gmap string pyval) (key : string) (agg : Q) :
  (∀ x, results !! key = Some (PNum x) → 0 <= x)%Q →
  as_float (get_or results key (PNum 0)) = Ok agg → (0 <= agg)%Q.
Proof.
  intros Hkey. unfold get_or.
  destruct (results !! key) as [v|]; cbn; [|by intros [= <-]].
  destruct v; cbn; try done; intros [= <-]; [by destruct b | by apply Hkey].
Qed.

(** X6: The record of a run has non-negative speeds whenever the external
    library reports non-negative byte counters and non-negative
    aggregate figures: [download_mbps] and [upload_mbps] are numbers
    that are at least 0. *)
Theorem run_speeds_nonneg (w : Workload) (now : datetime) (flag : bool)
    (r : SpeedResult) :
  (_run_blocking w now (fresh flag)).1 = Ok r →
  counters_nonneg (download_reports w) →
  counters_nonneg (upload_reports w) →
  (∀ x, results_dict w !! "download" = Some (PNum x) → 0 <= x)%Q →
  (∀ x, results_dict w !! "upload" = Some (PNum x) → 0 <= x)%Q →
  ∃ d u, download_mbps r = PNum d ∧ upload_mbps r = PNum u
    ∧ (0 <= d)%Q ∧ (0 <= u)%Q.
Proof.
  intros Hrun Hdl Hul Hdfig Hufig.
  apply run_returns_build_result in Hrun.
  destruct (build_result_Ok _ _ _ _ _ Hrun)
    as (dagg & uagg & d & u & Hd & Hu & Hfd & Hfu & Hrd & Hru).
  exists d, u. split; [done|]. split; [done|].
  apply figure_nonneg in Hd; [|done].
  apply figure_nonneg in Hu; [|done].
  apply samples_nonneg in Hdl, Hul. split.
  - destruct (fallback_cases _ _ _ Hfd) as [->|[_ Hmax]].
    + by apply megabits_nonneg.
    + apply max_is_maximum in Hmax as [Hin _].
      rewrite Forall_forall in Hdl. by apply Hdl.
  - destruct (fallback_cases _ _ _ Hfu) as [->|[_ Hmax]].
    + by apply megabits_nonneg.
    + apply max_is_maximum in Hmax as [Hin _].
      rewrite Forall_forall in Hul. by apply Hul.
Qed.

(** X7: When the results of the external library have no ["download"] key
    the figure counts as 0.0: the record's [download_mbps] is the
    largest kept sample, or [0.0 / 1_000_000] when no sample was kept.
    When the key holds [None] building the record raises
    [TypeError]. *)
Theorem missing_download_figure (results : gmap string pyval)
    (ds us : list Q) (now : datetime) :
  (results !! "download" = None →
   ∀ r, build_result results ds us now = Ok r →
     (ds = [] → download_mbps r = PNum (0 / 1000000))
     ∧ (ds ≠ [] → ∃ m, Gauges.max ds = Ok m ∧ download_mbps r = PNum m))
  ∧ (results !! "download" = Some PNone →
     build_result results ds us now = Raise TypeError).
Proof.
  split.
  - intros Hmissing r Hr.
    destruct (build_result_Ok _ _ _ _ _ Hr)
      as (dagg & uagg & d & u & Hd & Hu & Hfd & Hfu & -> & _).
    unfold get_or in Hd. rewrite Hmissing in Hd. cbn in Hd.
    injection Hd as <-. split.
    + intros ->. rewrite fallback_no_samples in Hfd. by injection Hfd as <-.
    + intros Hne.
      rewrite fallback_nonpositive in Hfd.
      * exists d. by split.
      * apply megabits_nonpositive, Qle_refl.
      * done.
  - intros Hnull. unfold build_result, get_or. by rewrite Hnull.
Qed.

Lemma fallback_total (mbps : Q) (speeds : list Q) :
  ∃ d, fallback mbps speeds = Ok d.
Proof.
  unfold fallback. destruct speeds as [|x l].
  - rewrite andb_false_r. by eexists.
  - destruct (Qle_bool mbps 0); by eexists.
Qed.

(** X8: Results that hold numbers (or nothing) for the two aggregate
    figures and have neither a ["server"] nor a ["client"] entry still
    give a record: its [server_name] and [isp] are absent, its
    timestamp is the time of the build, its ping is the reported one or
    0.0, and its jitter and packet loss are the reported ones or
    absent. *)
Theorem record_without_server_and_client (results : gmap string pyval)
    (ds us : list Q) (now : datetime) (dagg uagg : Q) :
  as_float (get_or results "download" (PNum 0)) = Ok dagg →
  as_float (get_or results "upload" (PNum 0)) = Ok uagg →
  results !! "server" = None →
  results !! "client" = None →
  ∃ r, build_result results ds us now = Ok r
    ∧ server_name r = PNone ∧ isp r = PNone ∧ timestamp r = now
    ∧ ping_ms r = default (PNum 0) (results !! "ping")
    ∧ jitter_ms r = default PNone (results !! "jitter")
    ∧ packet_loss r = default PNone (results !! "packetLoss").
Proof.
  intros Hd Hu Hserver Hclient. unfold build_result.
  rewrite Hd. cbn [mbind res_bind]. rewrite div_nonzero by apply million_nonzero.
  cbn [mbind res_bind]. rewrite Hu. cbn [mbind res_bind].
  rewrite div_nonzero by apply million_nonzero. cbn [mbind res_bind].
  unfold client_isp, get_or. rewrite Hserver, Hclient.
  cbn [default]. change (synthesize_server_name (PDict ∅)) with (Ok PNone).
  cbn [mbind res_bind].
  destruct (fallback_total (dagg / 1000000) ds) as [d ->].
  destruct (fallback_total (uagg / 1000000) us) as [u ->].
  cbn [mbind res_bind mret res_ret]. eexists. split; [reflexivity|].
  by repeat split.
Qed.

End BuildFacts.

(** ** Deserialization and the history file *)

Section StoreFacts.
Context `{RT : PyRuntime}.
Import HistoryFiles.

(** X9: [from_dict] reads the eight field names and nothing else: adding,
    changing or removing any other key of the dictionary changes
    neither the record nor the failure. *)
Theorem from_dict_ignores_other_keys (data : gmap string pyval)
    (key : string) (v : pyval) :
  key ∉ field_names →
  from_dict (<[key := v]> data) = from_dict data
  ∧ from_dict (delete key data) = from_dict data.
Proof.
  intros Hkey. unfold field_names in Hkey.
  repeat (apply not_elem_of_cons in Hkey as [? Hkey]).
  unfold from_dict, subscript, get, get_or.
  by rewrite !lookup_insert_ne, !lookup_delete_ne.
Qed.

(** X10: [from_dict] fails in exactly three ways: [KeyError] when the key
    ["timestamp"] is missing, [TypeError] when its value is not a
    string, [ValueError] when the string is not a timestamp the parser
    accepts.  No other field is checked. *)
Theorem from_dict_failures (data : gmap string pyval) (e : exn) :
  from_dict data = Raise e ↔
    (data !! "timestamp" = None ∧ e = KeyError)
    ∨ (∃ v, data !! "timestamp" = Some v ∧ (∀ s, v ≠ PStr s)
         ∧ e = TypeError)
    ∨ (∃ s, data !! "timestamp" = Some (PStr s) ∧ fromisoformat s = None
         ∧ e = ValueError).
Proof.
  unfold from_dict, subscript. split.
  - destruct (data !! "timestamp") as [v|]; cbn; [|intros [= <-]; by left].
    destruct v; cbn;
      try (intros [= <-]; right; left; eexists; by repeat split).
    destruct (fromisoformat s) eqn:Hs; cbn; [done|].
    intros [= <-]. right. right. by exists s.
  - intros [[-> ->] | [(v & -> & Hv & ->) | (s & -> & Hs & ->)]]; cbn.
    + done.
    + destruct v; cbn; try done. by destruct (Hv s).
    + by rewrite Hs.
Qed.

Lemma load_history_records (txt : text) (rs : list SpeedResult) :
  json_loads txt = Some (PList ((λ entry, PDict (to_dict entry)) <$> rs)) →
  Forall printable rs →
  load_history (Some txt) = Ok (last_n HISTORY_LIMIT rs).
Proof.
  intros Hloads Hrs. unfold load_history, loads. rewrite Hloads.
  cbn [mbind res_bind iter].
  rewrite (comprehension_fmap_Ok from_item (λ entry, PDict (to_dict entry))).
  - done.
  - eapply Forall_impl; [exact Hrs|]. intros r Hr. cbn.
    by apply from_dict_inverts_to_dict.
Qed.

(** X11: A history file that holds the serialized forms of any number of
    records loads as the last 10 of them, in the order of the file:
    [load_history] trims a longer file itself and never returns more
    than 10 records. *)
Theorem load_history_trims (txt : text) (rs : list SpeedResult) :
  json_loads txt = Some (PList ((λ entry, PDict (to_dict entry)) <$> rs)) →
  Forall printable rs →
  load_history (Some txt) = Ok (drop (length rs - 10) rs)
  ∧ (length (drop (length rs - 10) rs) ≤ 10)%nat.
Proof.
  intros Hloads Hrs. split; [by apply load_history_records|].
  rewrite length_drop. lia.
Qed.

(** X12: Saving onto a history file that is malformed (for instance one in
    which a single entry lacks its timestamp) replaces it: afterwards
    the history is the new record alone, whatever the file held. *)
Theorem save_result_replaces_malformed_file (r : SpeedResult) (txt : text) :
  (∀ v, json_loads (json_dumps v) = Some v) →
  printable r →
  malformed txt →
  ∃ file, save_result r (Some txt) = Ok file ∧ load_history file = Ok [r].
Proof.
  intros Hjson Hr Hbad.
  destruct (save_result_then_load (Some txt) [] r Hjson) as (file & Hsave & Hload);
    [by apply load_history_malformed | done..|].
  by exists file.
Qed.

Lemma export_history_written (history_path : string) (now : datetime)
    (path : string) (files : gmap string text) (h : list SpeedResult) :
  load_history (files !! history_path) = Ok h →
  export_history history_path now path files
  = Ok (<[path := json_dumps
                    (PDict (list_to_map
                       [("exported_at", PStr (isoformat now));
                        ("results",
                         PList ((λ entry, PDict (to_dict entry)) <$> h))]))]>
          files).
Proof. intros Hload. unfold export_history. by rewrite Hload. Qed.

(** X13: The file [export_history] writes is a JSON object with the export
    time under ["exported_at"] and, under ["results"], at most 10
    entries that deserialize to the current history, in its order; no
    other path is written. *)
Theorem export_history_contents (history_path : string) (now : datetime)
    (path : string) (files : gmap string text) (h : list SpeedResult) :
  (∀ v, json_loads (json_dumps v) = Some v) →
  load_history (files !! history_path) = Ok h →
  Forall printable h →
  ∃ files' txt doc items,
    export_history history_path now path files = Ok files'
    ∧ files' !! path = Some txt
    ∧ (∀ other, other ≠ path → files' !! other = files !! other)
    ∧ json_loads txt = Some (PDict doc)
    ∧ doc !! "exported_at" = Some (PStr (isoformat now))
    ∧ doc !! "results" = Some (PList items)
    ∧ comprehension from_item items = Ok h
    ∧ (length items ≤ 10)%nat.
Proof.
  intros Hjson Hload Hh.
  do 4 eexists. split; [by apply export_history_written|].
  split; [apply lookup_insert_eq|].
  split; [intros other Hother; by apply lookup_insert_ne|].
  split; [apply Hjson|]. split; [reflexivity|]. split; [reflexivity|]. split.
  - apply comprehension_fmap_Ok. eapply Forall_impl; [exact Hh|].
    intros r Hr. cbn. by apply from_dict_inverts_to_dict.
  - rewrite length_fmap. by eapply load_history_length.
Qed.

(** X14: Exporting to a path other than the history file leaves the history
    as it is.  Exporting onto the history file itself destroys the
    history: the file then holds the export object, which is not a list
    of records, and loads as the empty history. *)
Theorem export_history_onto_history_file (history_path : string)
    (now : datetime) (path : string) (files files' : gmap string text) :
  (∀ v, json_loads (json_dumps v) = Some v) →
  export_history history_path now path files = Ok files' →
  (path ≠ history_path →
   load_history (files' !! history_path) = load_history (files !! history_path))
  ∧ (path = history_path → load_history (files' !! history_path) = Ok []).
Proof.
  intros Hjson Hexport.
  destruct (load_history_total (files !! history_path)) as [h Hload].
  rewrite (export_history_written _ _ _ _ _ Hload) in Hexport.
  injection Hexport as <-. split.
  - intros Hne. by rewrite lookup_insert_ne.
  - intros ->. rewrite lookup_insert_eq. apply load_history_malformed.
    right. eexists. split; [apply Hjson|]. by intros (l & [=] & _).
Qed.

End StoreFacts.

(** ** The sliding window and its bars *)

Section WindowFacts.
Import Gauges.

Lemma push_samples (v : Q) (b : AnalyzerBars) :
  within_capacity b →
  samples (push v b) = last_n (capacity b) (samples b ++ [v]).
Proof.
  unfold within_capacity, push, last_n. intros Hb.
  rewrite length_app. cbn [length].
  case_decide as Hfull; cbn [samples].
  - replace (length (samples b) + 1 - capacity b)%nat with 1%nat by lia.
    by destruct (samples b ++ [v]).
  - by replace (length (samples b) + 1 - capacity b)%nat with 0%nat by lia.
Qed.

Lemma push_all_samples (values : list Q) (b : AnalyzerBars) :
  within_capacity b →
  samples (push_all values b) = last_n (capacity b) (samples b ++ values).
Proof.
  revert b. induction values as [|v values IH]; intros b Hb.
  - cbn. rewrite app_nil_r. symmetry. by apply last_n_all.
  - cbn [push_all foldl]. fold (push_all values (push v b)).
    rewrite IH by by apply push_within_capacity.
    rewrite push_capacity, push_samples by done.
    by rewrite last_n_app_last_n, <- app_assoc.
Qed.

(** X15: The buffer is a sliding window: after any sequence of pushes on an
    empty buffer of capacity [C] it holds the last [C] pushed values,
    oldest first, and nothing else; its capacity is unchanged. *)
Theorem push_all_keeps_last (C : nat) (values : list Q) :
  samples (push_all values (init C)) = drop (length values - C) values
  ∧ capacity (push_all values (init C)) = C.
Proof.
  split.
  - rewrite push_all_samples by (unfold within_capacity; cbn; lia). done.
  - by destruct (push_all_invariant (λ _, True) values (init C))
      as (Hcap & _);
      [unfold within_capacity; cbn; lia | | apply Forall_true |].
Qed.

Lemma int_floor (x : Q) : (0 <= x)%Q → int x = Qfloor x.
Proof.
  destruct x as [a d]. unfold Qle, int, Qfloor. cbn. intros Ha.
  apply Z.quot_div_nonneg; lia.
Qed.

Lemma comprehension_pure {A B} (f : A → res B) (g : A → B) (l : list A) :
  Forall (λ x, f x = Ok (g x)) l → comprehension f l = Ok (g <$> l).
Proof.
  induction 1 as [|x l Hx _ IH]; cbn; [done|].
  by rewrite Hx; cbn; rewrite IH.
Qed.

Lemma index_blocks_nth (z : Z) :
  0 ≤ z ≤ 7 → index blocks z = Ok (nth (Z.to_nat z) blocks lowest).
Proof.
  intros Hz.
  assert (z = 0 ∨ z = 1 ∨ z = 2 ∨ z = 3 ∨ z = 4 ∨ z = 5 ∨ z = 6 ∨ z = 7)
    as Hcases by lia.
  by repeat destruct Hcases as [->|Hcases]; try subst z.
Qed.

Lemma normalize_level (m val : Q) :
  ¬ (m == 0)%Q → normalize m val = Ok (Z.min (int (val / m * 7)) 7).
Proof. intros Hm. unfold normalize. by rewrite div_nonzero. Qed.

Lemma ratio_nonneg (m val : Q) :
  (0 < m)%Q → (0 <= val)%Q → (0 <= val / m * 7)%Q.
Proof.
  intros Hm Hval. apply Qmult_le_0_compat; [|done].
  apply Qmult_le_0_compat; [done|]. by apply Qinv_le_0_compat, Qlt_le_weak.
Qed.

Lemma bar_of_maximum (m val : Q) :
  (0 < m)%Q → (val == m)%Q → bar_of m val = full_block.
Proof.
  intros Hm Hval. unfold bar_of.
  assert (val / m * 7 == 7)%Q as Hratio.
  { rewrite Hval. unfold Qdiv. rewrite Qmult_inv_r; [done|].
    intros Hz. rewrite Hz in Hm. by apply Qlt_irrefl in Hm. }
  rewrite int_floor by (rewrite Hratio; done).
  rewrite Hratio. change (7%Q) with (inject_Z 7). by rewrite Qfloor_Z.
Qed.

Lemma bar_of_zero (m val : Q) :
  ¬ (m == 0)%Q → (val == 0)%Q → bar_of m val = lowest.
Proof.
  intros Hm Hval. unfold bar_of.
  assert (val / m * 7 == 0)%Q as Hratio.
  { rewrite Hval. unfold Qdiv. by rewrite !Qmult_0_l. }
  rewrite int_floor by (rewrite Hratio; done).
  rewrite Hratio. change (0%Q) with (inject_Z 0). by rewrite Qfloor_Z.
Qed.

Lemma bar_of_blocks (m val : Q) : bar_of m val ∈ blocks.
Proof.
  unfold bar_of.
  destruct (decide (Z.to_nat (Z.min (int (val / m * 7)) 7) < length blocks)%nat)
    as [Hlt|Hge].
  - apply list_elem_of_In, nth_In. done.
  - rewrite nth_overflow by lia. rewrite list_elem_of_In. by left.
Qed.

(** X16: For a buffer of non-negative samples that is not empty, the text
    of [render] is the padding followed by one bar per sample, the bar
    of a sample being [blocks[min(int(sample / m * 7), 7)]] with [m]
    the divisor [max(samples) or 1].  A sample of 0 renders as the
    lowest block and a sample equal to the divisor as the full block;
    when some sample is positive the divisor is one of the samples, so
    that the largest sample is drawn as the full block. *)
Theorem render_bars (rand : nat → nat) (b : AnalyzerBars) :
  samples b ≠ [] →
  Forall (λ v, 0 <= v)%Q (samples b) →
  ∃ m, max_sample (samples b) = Ok m
    ∧ render rand b
      = Ok (replicate (capacity b - length (samples b)) lowest
            ++ (bar_of m <$> samples b))
    ∧ (∀ v, (v == 0 → bar_of m v = lowest)%Q
            ∧ (v == m → bar_of m v = full_block)%Q)
    ∧ ((∃ x, x ∈ samples b ∧ 0 < x)%Q → m ∈ samples b).
Proof.
  intros Hne Hpos.
  destruct (max_sample_positive _ Hne Hpos) as (m & Hmax & Hm).
  assert (¬ (m == 0)%Q) as Hm0 by by eapply max_sample_nonzero.
  exists m. split; [done|]. split.
  - unfold render. rewrite Hmax.
    destruct (samples b) as [|v l] eqn:Hs; [done|]. rewrite <- Hs in *.
    cbn [mbind res_bind].
    rewrite (comprehension_pure (normalize m)
               (λ val, Z.min (int (val / m * 7)) 7)).
    2:{ apply Forall_true. intros x. by apply normalize_level. }
    cbn [mbind res_bind].
    rewrite (comprehension_pure (index blocks)
               (λ z, nth (Z.to_nat z) blocks lowest)).
    2:{ apply Forall_fmap. eapply Forall_impl; [exact Hpos|].
        intros x Hx. cbn. apply index_blocks_nth.
        pose proof (int_nonneg _ (ratio_nonneg m x Hm Hx)). lia. }
    change (index blocks 0) with (Ok lowest).
    cbn [mbind res_bind mret res_ret]. unfold rjust.
    by rewrite !length_fmap, <- list_fmap_compose.
  - split.
    + intros v. split; [by apply bar_of_zero | by apply bar_of_maximum].
    + intros (x & Hx & Hxpos). unfold max_sample in Hmax.
      destruct (max (samples b)) as [m'|] eqn:Hmax'; [|done].
      cbn in Hmax. apply max_is_maximum in Hmax' as [Hin Hall].
      rewrite Forall_forall in Hall. specialize (Hall x Hx).
      destruct (Qeq_bool m' 0) eqn:Hz; [|by injection Hmax as <-].
      apply Qeq_bool_iff in Hz. rewrite Hz in Hall.
      by apply Qle_not_lt in Hall.
Qed.

(** X17: A larger sample never gets a lower bar: for non-negative samples
    [v1 <= v2] and a positive divisor, the index [normalize] computes
    for [v1] is at most the one for [v2], and both lie between 0 and
    7. *)
Theorem normalize_monotone (m v1 v2 : Q) :
  (0 < m)%Q → (0 <= v1)%Q → (v1 <= v2)%Q →
  ∃ z1 z2, normalize m v1 = Ok z1 ∧ normalize m v2 = Ok z2
    ∧ 0 ≤ z1 ∧ z1 ≤ z2 ∧ z2 ≤ 7.
Proof.
  intros Hm Hv1 Hle.
  assert (¬ (m == 0)%Q) as Hm0.
  { intros Hz. rewrite Hz in Hm. by apply Qlt_irrefl in Hm. }
  assert (0 <= v2)%Q as Hv2 by by eapply Qle_trans.
  rewrite !normalize_level by done. do 2 eexists.
  split; [done|]. split; [done|].
  pose proof (int_nonneg _ (ratio_nonneg m v1 Hm Hv1)) as Hz1.
  rewrite !int_floor by by apply ratio_nonneg.
  rewrite int_floor in Hz1 by by apply ratio_nonneg.
  assert (Qfloor (v1 / m * 7) ≤ Qfloor (v2 / m * 7)) as Hmono.
  { apply Qfloor_resp_le. apply Qmult_le_compat_r; [|done].
    apply Qmult_le_compat_r; [done|].
    by apply Qinv_le_0_compat, Qlt_le_weak. }
  lia.
Qed.

Lemma comprehension_raise_uniform {A B} (f : A → res B) (l : list A)
    (x : A) (e : exn) :
  x ∈ l → f x = Raise e → (∀ y e', f y = Raise e' → e' = e) →
  comprehension f l = Raise e.
Proof.
  intros Hin Hx Hall.
  destruct (comprehension f l) as [ys|e'] eqn:Hl.
  - apply comprehension_Ok in Hl. rewrite Forall_forall in Hl.
    destruct (Hl x Hin) as [y Hy]. congruence.
  - apply comprehension_raises in Hl as (y & _ & Hy).
    by rewrite (Hall y e' Hy).
Qed.

Lemma int_at_most (x : Q) (n : Z) : (x <= inject_Z n)%Q → n ≤ 0 → int x ≤ n.
Proof.
  destruct x as [a d]. unfold Qle, int. cbn. intros Ha Hn.
  rewrite <- (Z.quot_mul n (Z.pos d)) by done.
  apply Z.quot_le_mono; lia.
Qed.

(** X18: [render] is not defined on every buffer: when a sample is so far
    below zero that [int(sample / m * 7)] is at most -9, with [m] the
    divisor [max(samples) or 1], the index falls outside [blocks] and
    [render] raises [IndexError]. *)
Theorem render_rejects_low_samples (rand : nat → nat) (b : AnalyzerBars)
    (m v : Q) :
  max_sample (samples b) = Ok m →
  v ∈ samples b →
  (v / m * 7 <= -9)%Q →
  render rand b = Raise IndexError.
Proof.
  intros Hmax Hv Hlow. unfold render. rewrite Hmax.
  assert (¬ (m == 0)%Q) as Hm0 by by eapply max_sample_nonzero.
  destruct (samples b) as [|v0 l] eqn:Hs; [by apply elem_of_nil in Hv|].
  rewrite <- Hs in *. cbn [mbind res_bind].
  rewrite (comprehension_pure (normalize m)
             (λ val, Z.min (int (val / m * 7)) 7)).
  2:{ apply Forall_true. intros x. by apply normalize_level. }
  cbn [mbind res_bind].
  rewrite (comprehension_raise_uniform (index blocks) _
             (Z.min (int (v / m * 7)) 7) IndexError); [done| | |].
  - by apply (list_elem_of_fmap_2 (λ val, Z.min (int (val / m * 7)) 7)).
  - assert (int (v / m * 7) ≤ -9) as Hint by by apply int_at_most.
    unfold index. cbn [length blocks].
    generalize dependent (int (v / m * 7)). intros z Hz.
    destruct (Z.ltb_spec (Z.min z 7) 0) as [Hneg|Hneg]; [|lia].
    destruct (Z.leb_spec 0 (Z.min z 7 + Z.of_nat 8)) as [Hge|Hge]; [lia|done].
  - intros y e'. apply index_raises.
Qed.

End WindowFacts.

(** ** The speedometer *)

Section SpeedometerFacts.
Import Speedometer.

Lemma min_Qmin (a b : Q) : (min a b == Qmin a b)%Q.
Proof.
  unfold min. destruct (Qle_bool a b) eqn:Hle.
  - apply Qle_bool_iff in Hle. symmetry. by apply Q.min_l.
  - symmetry. apply Q.min_r, Qlt_le_weak, Qnot_le_lt. intros Hc.
    apply Qle_bool_iff in Hc. congruence.
Qed.

Lemma max_Qmax (a b : Q) : (max a b == Qmax a b)%Q.
Proof.
  unfold max. destruct (Qle_bool b a) eqn:Hle.
  - apply Qle_bool_iff in Hle. symmetry. by apply Q.max_l.
  - symmetry. apply Q.max_r, Qlt_le_weak, Qnot_le_lt. intros Hc.
    apply Qle_bool_iff in Hc. congruence.
Qed.

(** [max(0.0, min(speed, max_speed))] is the speed clamped into
    [[0, max_speed]]. *)
Lemma clamped_Qmax (speed limit : Q) :
  (max 0 (min speed limit) == Qmax 0 (Qmin speed limit))%Q.
Proof. by rewrite max_Qmax, min_Qmin. Qed.

Lemma needle_pos_floor (self : SpeedometerGauge) (speed : Q) :
  ¬ (max_speed self == 0)%Q →
  needle_pos self speed
  = Ok (int (max 0 (min speed (max_speed self)) / max_speed self * 28))
  ∧ (0 <= max 0 (min speed (max_speed self)) / max_speed self * 28
     <= 28)%Q.
Proof.
  intros Hlimit. unfold needle_pos. rewrite div_nonzero by done.
  split; [done|]. rewrite clamped_Qmax.
  set (c := Qmax 0 (Qmin speed (max_speed self))).
  assert (0 <= c)%Q as Hc by apply Q.le_max_l.
  destruct (Qlt_le_dec 0 (max_speed self)) as [Hpos|Hneg].
  - assert (c <= max_speed self)%Q as Hcm.
    { apply Q.max_lub; [by apply Qlt_le_weak | apply Q.le_min_r]. }
    split.
    + apply Qmult_le_0_compat; [|done]. apply Qmult_le_0_compat; [done|].
      by apply Qinv_le_0_compat, Qlt_le_weak.
    + rewrite <- (Qmult_1_l 28) at 2. apply Qmult_le_compat_r; [|done].
      apply Qle_shift_div_r; [done|]. by rewrite Qmult_1_l.
  - assert (c == 0)%Q as ->.
    { apply Qle_antisym; [|done].
      apply Q.max_lub; [apply Qle_refl|].
      eapply Qle_trans; [apply Q.le_min_r | done]. }
    unfold Qdiv. rewrite !Qmult_0_l. by split.
Qed.

Lemma needle_pos_Qfloor (self : SpeedometerGauge) (speed : Q) :
  ¬ (max_speed self == 0)%Q →
  needle_pos self speed
  = Ok (Qfloor (Qmax 0 (Qmin speed (max_speed self)) / max_speed self * 28)).
Proof.
  intros Hlimit. destruct (needle_pos_floor self speed Hlimit) as [-> [Hlo _]].
  rewrite int_floor by done. by rewrite clamped_Qmax.
Qed.

(** X19: The needle exists exactly when [max_speed] is not 0: a gauge whose
    [max_speed] is 0 raises [ZeroDivisionError] for every speed, and
    every other gauge places the needle in a column between 0 and 28,
    whatever the speed (negative or beyond [max_speed]). *)
Theorem needle_pos_in_range (self : SpeedometerGauge) (speed : Q) :
  ((max_speed self == 0)%Q → needle_pos self speed = Raise ZeroDivisionError)
  ∧ (¬ (max_speed self == 0)%Q →
     ∃ pos, needle_pos self speed = Ok pos ∧ 0 ≤ pos ≤ 28).
Proof.
  split.
  - intros Hzero. unfold needle_pos, div.
    by apply Qeq_bool_iff in Hzero as ->.
  - intros Hlimit.
    destruct (needle_pos_floor self speed Hlimit) as [-> [Hlo Hhi]].
    eexists. split; [done|]. rewrite int_floor by done.
    apply Qfloor_resp_le in Hlo, Hhi.
    change (Qfloor 0) with 0 in Hlo. change (Qfloor 28) with 28 in Hhi.
    lia.
Qed.

(** X20: On a gauge with a positive [max_speed] the needle follows the
    speed: it is in column 0 for a speed of 0 or less, in column 28
    for a speed of [max_speed] or more, and a higher speed never moves
    it to the left. *)
Theorem needle_follows_speed (self : SpeedometerGauge) (speed speed' : Q) :
  (0 < max_speed self)%Q →
  ((speed <= 0)%Q → needle_pos self speed = Ok 0)
  ∧ ((max_speed self <= speed)%Q → needle_pos self speed = Ok 28)
  ∧ ((speed <= speed')%Q →
     ∃ pos pos', needle_pos self speed = Ok pos
       ∧ needle_pos self speed' = Ok pos' ∧ pos ≤ pos').
Proof.
  intros Hpos.
  assert (¬ (max_speed self == 0)%Q) as Hlimit.
  { intros Hz. rewrite Hz in Hpos. by apply Qlt_irrefl in Hpos. }
  rewrite !needle_pos_Qfloor by done. split; [|split].
  - intros Hlow. f_equal.
    assert (Qmax 0 (Qmin speed (max_speed self)) == 0)%Q as ->.
    { apply Q.max_l. eapply Qle_trans; [apply Q.le_min_l | done]. }
    unfold Qdiv. rewrite !Qmult_0_l. done.
  - intros Hhigh. f_equal.
    assert (Qmax 0 (Qmin speed (max_speed self)) == max_speed self)%Q as ->.
    { rewrite Q.min_r by done. by apply Q.max_r, Qlt_le_weak. }
    unfold Qdiv. rewrite Qmult_inv_r by done. done.
  - intros Hle. do 2 eexists. split; [done|]. split; [done|].
    apply Qfloor_resp_le. apply Qmult_le_compat_r; [|done].
    apply Qmult_le_compat_r; [|by apply Qinv_le_0_compat, Qlt_le_weak].
    by apply Q.max_le_compat_l, Q.min_le_compat_r.
Qed.

Lemma tick_line_shape (n : nat) :
  (n ≤ 28)%nat →
  tick_line (Z.of_nat n)
  = replicate (S n) 0x2584%N ++ replicate (28 - n) 0xB7%N.
Proof.
  intros Hn. do 29 (destruct n as [|n]; [reflexivity|]). lia.
Qed.

(** X21: Every dial a gauge with a non-zero [max_speed] renders has four
    lines of 31 glyphs.  Between the borders, the tick line is filled
    up to and including the column of the needle and dotted after it,
    and the needle line holds the needle in its column and spaces
    elsewhere; the status text is the status in upper case. *)
Theorem render_dial (format_speed : Q → string) (self : SpeedometerGauge)
    (speed : Q) (status : string) :
  ¬ (max_speed self == 0)%Q →
  ∃ (col : nat) (d : dial),
    needle_pos self speed = Ok (Z.of_nat col)
    ∧ (col ≤ 28)%nat
    ∧ render format_speed self speed status = Ok d
    ∧ length (lines d) = 4%nat
    ∧ Forall (λ line, length line = 31%nat) (lines d)
    ∧ lines d !! 1%nat
      = Some ([0x2502%N] ++ replicate (S col) 0x2584%N
              ++ replicate (28 - col) 0xB7%N ++ [0x2502%N])
    ∧ lines d !! 2%nat
      = Some ([0x2502%N] ++ replicate col space ++ [0x26A1%N]
              ++ replicate (28 - col) space ++ [0x2502%N])
    ∧ status_text d = Dashboard.upper status
    ∧ speed_text d = format_speed speed.
Proof.
  intros Hlimit.
  destruct (proj2 (needle_pos_in_range self speed) Hlimit)
    as (pos & Hpos & Hrange).
  remember (Z.to_nat pos) as col eqn:Hcol.
  assert (pos = Z.of_nat col) as -> by lia.
  assert (col ≤ 28)%nat as Hle by lia.
  exists col. unfold render. rewrite Hpos. cbn [mbind res_bind mret res_ret].
  eexists. split; [done|]. split; [done|]. split; [reflexivity|].
  cbn [lines speed_text status_text].
  rewrite tick_line_shape by done.
  unfold needle, ljust. rewrite Nat2Z.id.
  split; [done|]. split.
  - repeat constructor; rewrite ?length_app, ?length_replicate; cbn; lia.
  - split; [by rewrite <- !app_assoc|]. split; [|done].
    cbn [lookup list_lookup]. f_equal. rewrite <- !app_assoc. do 3 f_equal.
    rewrite length_app, length_replicate. cbn [length]. f_equal. f_equal. lia.
Qed.

End SpeedometerFacts.

(** ** The quality grade *)

Section QualityFacts.
Context `{RT : PyRuntime}.
Import Quality.

Lemma or_zero_number (p : Q) :
  ∃ p', or_zero (PNum p) = PNum p' ∧ (p' == p)%Q.
Proof.
  unfold or_zero. cbn [truthy]. destruct (Qeq_bool p 0) eqn:Hz; cbn [negb].
  - exists 0%Q. split; [done|]. apply Qeq_bool_iff in Hz. by symmetry.
  - by exists p.
Qed.

Lemma Qle_bool_Qeq (b x y : Q) : (x == y)%Q → Qle_bool b x = Qle_bool b y.
Proof.
  intros Hxy. destruct (Qle_bool b y) eqn:Hy.
  - apply Qle_bool_iff. apply Qle_bool_iff in Hy. by rewrite Hxy.
  - destruct (Qle_bool b x) eqn:Hx; [|done].
    apply Qle_bool_iff in Hx. rewrite Hxy in Hx.
    apply Qle_bool_iff in Hx. congruence.
Qed.

Lemma meets_numbers (r : SpeedResult) (d u p down up ping : Q) :
  download_mbps r = PNum d → upload_mbps r = PNum u → ping_ms r = PNum p →
  meets r down up ping
  = Ok (Qle_bool down d && Qle_bool up u && negb (Qle_bool ping p)).
Proof.
  intros Hd Hu Hp. unfold meets, ge, lt. rewrite Hd, Hu, Hp.
  destruct (or_zero_number p) as (p' & -> & Hp').
  cbn. rewrite (Qle_bool_Qeq ping p' p Hp').
  by destruct (Qle_bool down d), (Qle_bool up u).
Qed.

Lemma Qle_bool_trans (b x y : Q) :
  (x <= y)%Q → Qle_bool b x = true → Qle_bool b y = true.
Proof.
  intros Hxy Hx. apply Qle_bool_iff. apply Qle_bool_iff in Hx.
  by eapply Qle_trans.
Qed.

Lemma meets_monotone (d u p d' u' p' down up ping : Q) :
  (d <= d')%Q → (u <= u')%Q → (p' <= p)%Q →
  Qle_bool down d && Qle_bool up u && negb (Qle_bool ping p) = true →
  Qle_bool down d' && Qle_bool up u' && negb (Qle_bool ping p') = true.
Proof.
  intros Hd Hu Hp Hmeets.
  apply andb_prop in Hmeets as [Hmeets Hping].
  apply andb_prop in Hmeets as [Hdown Hup].
  rewrite (Qle_bool_trans down d d'), (Qle_bool_trans up u u') by done.
  cbn. destruct (Qle_bool ping p') eqn:Hp'; [|done].
  rewrite (Qle_bool_trans ping p' p) in Hping by done. done.
Qed.

(** X22: On records whose speeds and ping are numbers the grade is one of
    [BASIC], [GOOD], [FAST], [ULTRA], and it is monotone: a record
    with at least the download and upload speed and at most the ping
    of another never gets a lower grade. *)
Theorem summarize_quality_monotone (r r' : SpeedResult) (d u p d' u' p' : Q) :
  download_mbps r = PNum d → upload_mbps r = PNum u → ping_ms r = PNum p →
  download_mbps r' = PNum d' → upload_mbps r' = PNum u' →
  ping_ms r' = PNum p' →
  (d <= d')%Q → (u <= u')%Q → (p' <= p)%Q →
  ∃ grade grade',
    summarize_quality r = Ok grade ∧ summarize_quality r' = Ok grade'
    ∧ grade ∈ ["BASIC"; "GOOD"; "FAST"; "ULTRA"]
    ∧ grade' ∈ ["BASIC"; "GOOD"; "FAST"; "ULTRA"]
    ∧ (grade_rank grade ≤ grade_rank grade')%nat.
Proof.
  intros Hd Hu Hp Hd' Hu' Hp' Hdd Huu Hpp. unfold summarize_quality.
  rewrite !(meets_numbers r d u p), !(meets_numbers r' d' u' p') by done.
  cbn [mbind res_bind].
  pose proof (meets_monotone d u p d' u' p' 500 100 20 Hdd Huu Hpp) as Hultra.
  pose proof (meets_monotone d u p d' u' p' 200 50 40 Hdd Huu Hpp) as Hfast.
  pose proof (meets_monotone d u p d' u' p' 50 10 60 Hdd Huu Hpp) as Hgood.
  destruct (Qle_bool 500 d && Qle_bool 100 u && negb (Qle_bool 20 p)).
  { rewrite Hultra by done. do 2 eexists. split; [done|]. split; [done|].
    cbn. repeat split; try lia; set_solver. }
  destruct (Qle_bool 200 d && Qle_bool 50 u && negb (Qle_bool 40 p)).
  { rewrite Hfast by done.
    destruct (Qle_bool 500 d' && _ && _);
      do 2 eexists; (split; [done|]); (split; [done|]);
      cbn; repeat split; try lia; set_solver. }
  destruct (Qle_bool 50 d && Qle_bool 10 u && negb (Qle_bool 60 p)).
  { rewrite Hgood by done.
    destruct (Qle_bool 500 d' && _ && _), (Qle_bool 200 d' && _ && _);
      do 2 eexists; (split; [done|]); (split; [done|]);
      cbn; repeat split; try lia; set_solver. }
  destruct (Qle_bool 500 d' && _ && _), (Qle_bool 200 d' && _ && _),
    (Qle_bool 50 d' && _ && _);
    do 2 eexists; (split; [done|]); (split; [done|]);
    cbn; repeat split; try lia; set_solver.
Qed.

(** X23: How [summarize_quality] treats fields that are not numbers: an
    absent ping counts as 0, so that a record with at least 500 down
    and 100 up and no ping is [ULTRA]; a download speed below 50 gives
    [BASIC] whatever the other fields hold, because the comparisons
    stop at the first that fails; an absent download speed raises
    [TypeError]. *)
Theorem summarize_quality_absent_fields (r : SpeedResult) :
  (∀ d u, download_mbps r = PNum d → upload_mbps r = PNum u →
     ping_ms r = PNone → (500 <= d)%Q → (100 <= u)%Q →
     summarize_quality r = Ok "ULTRA")
  ∧ (∀ d, download_mbps r = PNum d → (d < 50)%Q →
       summarize_quality r = Ok "BASIC")
  ∧ (download_mbps r = PNone → summarize_quality r = Raise TypeError).
Proof.
  split; [|split].
  - intros d u Hd Hu Hp Hdd Huu. unfold summarize_quality, meets, ge, lt.
    rewrite Hd, Hu, Hp. apply Qle_bool_iff in Hdd, Huu. cbn.
    by rewrite Hdd, Huu.
  - intros d Hd Hlow. unfold summarize_quality, meets, ge. rewrite Hd. cbn.
    assert (∀ b, (50 <= b)%Q → Qle_bool b d = false) as Hbelow.
    { intros b Hb. destruct (Qle_bool b d) eqn:Hc; [|done].
      apply Qle_bool_iff in Hc. exfalso.
      apply (Qlt_irrefl d). eapply Qlt_le_trans; [exact Hlow|].
      by eapply Qle_trans. }
    rewrite !Hbelow; [done|..]; unfold Qle; cbn; lia.
  - intros Hd. unfold summarize_quality, meets, ge. by rewrite Hd.
Qed.

End QualityFacts.

(** ** The dashboard and the events of a run *)

Section DeliveryFacts.
Context `{RT : PyRuntime}.
Import Dashboard.

(** What one delivered event does to the dashboard. *)
Lemma callback_step (ev : Engine.event) (d : Dashboard) :
  callback ev d
  = {| status_text := default (upper ev.1) (status_map !! ev.1);
       current_speed := speed_of ev;
       result := result d;
       running := running d;
       analyzer := Gauges.push (speed_of ev) (analyzer d);
       history_file := history_file d |}.
Proof.
  destruct ev as [status [mbps server]]. unfold callback, speed_of. cbn.
  by destruct mbps as [x|].
Qed.

Lemma deliver_all (events : list Engine.event) (d : Dashboard) :
  let d' := foldl (λ d ev, callback ev d) d events in
  result d' = result d
  ∧ running d' = running d
  ∧ history_file d' = history_file d
  ∧ analyzer d' = Gauges.push_all (speed_of <$> events) (analyzer d).
Proof.
  revert d. induction events as [|ev events IH]; intros d; [done|].
  cbn [foldl fmap list_fmap Gauges.push_all].
  destruct (IH (callback ev d)) as (Hr & Hrun & Hfile & Han).
  cbn zeta in *. rewrite Hr, Hrun, Hfile, Han. by rewrite callback_step.
Qed.

Lemma last_last_n {A} (n : nat) (l : list A) (x : A) :
  (0 < n)%nat → last (last_n n (l ++ [x])) = Some x.
Proof.
  intros Hn. unfold last_n. rewrite length_app. cbn [length].
  rewrite drop_app_le by lia. by rewrite last_snoc.
Qed.

(** X24: The dashboard shows the most recent event: after any sequence of
    delivered events its status is the label of the last event (the
    tag in upper case when the tag is not one of the five known ones),
    [current_speed] is the speed of the last event and also the newest
    sample of the analyzer, which stays within its capacity.  Events
    never touch [running], the result or the history file, so an event
    that arrives after a run was stopped still replaces the status. *)
Theorem dashboard_shows_last_event (events : list Engine.event)
    (ev : Engine.event) (d : Dashboard) :
  within_capacity (analyzer d) →
  (0 < Gauges.capacity (analyzer d))%nat →
  let d' := foldl (λ d ev, callback ev d) d (events ++ [ev]) in
  status_text d' = default (upper ev.1) (status_map !! ev.1)
  ∧ current_speed d' = speed_of ev
  ∧ last (Gauges.samples (analyzer d')) = Some (speed_of ev)
  ∧ within_capacity (analyzer d')
  ∧ Gauges.capacity (analyzer d') = Gauges.capacity (analyzer d)
  ∧ running d' = running d
  ∧ result d' = result d
  ∧ history_file d' = history_file d.
Proof.
  intros Hwithin Hcap. cbn zeta.
  destruct (deliver_all (events ++ [ev]) d) as (Hr & Hrun & Hfile & Han).
  cbn zeta in *. rewrite Hr, Hrun, Hfile, Han.
  rewrite foldl_snoc, callback_step. cbn [status_text current_speed].
  rewrite fmap_app.
  destruct (push_all_invariant (λ _, True)
              ((speed_of <$> events) ++ (speed_of <$> [ev]))
              (analyzer d) Hwithin) as (Hcap' & Hwithin' & _);
    [by apply Forall_true..|].
  rewrite push_all_samples, app_assoc by done.
  cbn [fmap list_fmap]. rewrite last_last_n by done.
  by repeat split.
Qed.

(** X25: A run that does not return a record leaves the dashboard stopped
    and without a result, and the history file as it was: the status
    is [CANCELLED] after a [CancelledError] and [ERROR], with
    [current_speed] back at 0, after any other exception.  The samples
    of the analyzer are kept. *)
Theorem run_test_without_result (events : list Engine.event) (e : exn)
    (d : Dashboard) :
  ∃ d', run_test events (Raise e) d = Ok d'
    ∧ running d' = false
    ∧ result d' = None
    ∧ history_file d' = history_file d
    ∧ analyzer d'
      = Gauges.push_all (speed_of <$> events) (analyzer d)
    ∧ (e = CancelledError → status_text d' = "CANCELLED")
    ∧ (e ≠ CancelledError →
       status_text d' = "ERROR" ∧ current_speed d' = 0%Q).
Proof.
  unfold run_test.
  destruct (deliver_all events (run_test_begin d)) as (Hr & Hrun & Hfile & Han).
  cbn zeta in *. cbn [run_test_begin result history_file analyzer] in *.
  destruct e; cbn [run_test_end is_Exception]; eexists;
    (split; [reflexivity|]); cbn; rewrite ?Hr, ?Hfile, ?Han;
    by repeat split.
Qed.

(** X26: A run that returns a record leaves the dashboard in [COMPLETE],
    not running, with the record as its result, and appends the record
    to the history file: the history then is the last 10 of the old
    history followed by the record. *)
Theorem run_test_saves_result (events : list Engine.event) (r : SpeedResult)
    (d : Dashboard) (h : list SpeedResult) :
  (∀ v, json_loads (json_dumps v) = Some v) →
  load_history (history_file d) = Ok h →
  Forall printable h →
  printable r →
  ∃ d', run_test events (Ok r) d = Ok d'
    ∧ status_text d' = "COMPLETE"
    ∧ running d' = false
    ∧ result d' = Some r
    ∧ load_history (history_file d')
      = Ok (drop (length (h ++ [r]) - 10) (h ++ [r])).
Proof.
  intros Hjson Hload Hh Hr. unfold run_test, run_test_end.
  destruct (deliver_all events (run_test_begin d)) as (_ & _ & Hfile & _).
  cbn zeta in Hfile. rewrite Hfile. cbn [run_test_begin history_file].
  destruct (save_result_then_load (history_file d) h r Hjson Hload Hh Hr)
    as (file' & -> & Hload').
  cbn [mbind res_bind mret res_ret]. eexists. split; [reflexivity|].
  by repeat split.
Qed.

Lemma speed_of_nonneg (status : string) (x : Q) :
  (0 <= x)%Q → (0 <= speed_of (status, Engine.mbps_kwarg x))%Q.
Proof.
  intros Hx. unfold speed_of. cbn. destruct (Qeq_bool x 0); [|done].
  apply Qle_refl.
Qed.

Lemma stage_events_fit (w : Engine.Workload) :
  counters_nonneg (Engine.download_reports w) →
  counters_nonneg (Engine.upload_reports w) →
  Forall (λ ev, ev.1 ∈ engine_tags ∧ (0 <= speed_of ev)%Q) (download_events w)
  ∧ Forall (λ ev, ev.1 ∈ engine_tags ∧ (0 <= speed_of ev)%Q) (upload_events w).
Proof.
  intros Hdl Hul. apply samples_nonneg in Hdl, Hul.
  unfold download_events, upload_events. split.
  - constructor; [split; [set_solver | apply Qle_refl]|].
    apply Forall_fmap. eapply Forall_impl; [exact Hdl|].
    intros x Hx. split; [set_solver | by apply speed_of_nonneg].
  - constructor; [split; [set_solver | apply Qle_refl]|].
    apply Forall_fmap. eapply Forall_impl; [exact Hul|].
    intros x Hx. split; [set_solver | by apply speed_of_nonneg].
Qed.

(** The events of any run are never empty; they carry the five known
    tags and, for non-negative byte counters, non-negative speeds. *)
Lemma run_events_fit (w : Engine.Workload) (now : datetime) (flag : bool) :
  counters_nonneg (Engine.download_reports w) →
  counters_nonneg (Engine.upload_reports w) →
  let events := Engine.emitted (Engine._run_blocking w now (Engine.fresh flag)).2 in
  events ≠ []
  ∧ Forall (λ ev, ev.1 ∈ engine_tags ∧ (0 <= speed_of ev)%Q) events.
Proof.
  intros Hdl Hul. cbn zeta. rewrite run_blocking_summary.
  destruct (stage_events_fit w Hdl Hul) as [Hde Hue].
  assert (∀ ev : Engine.event, ev = finding_server ∨ ev = finalizing
            ∨ (∃ best, ev = pinging best) →
            ev.1 ∈ engine_tags ∧ (0 <= speed_of ev)%Q) as Hplain.
  { intros ev [->|[->|[best ->]]]; (split; [set_solver | apply Qle_refl]). }
  unfold run_summary.
  destruct (Engine.best_server w) as [best|e].
  2:{ split; [done|]. constructor; [|done]. apply Hplain. by left. }
  assert (Forall (λ ev : Engine.event,
                    ev.1 ∈ engine_tags ∧ (0 <= speed_of ev)%Q)
                 [finding_server; pinging best]) as Hopen.
  { constructor; [apply Hplain; by left|].
    constructor; [|done]. apply Hplain. right. right. by eexists. }
  destruct (Engine.cancel_during w Engine.Discovery).
  { split; [done|]. constructor; [|done]. apply Hplain. by left. }
  destruct (Engine.cancel_during w Engine.Ping); [done|].
  assert (Forall (λ ev : Engine.event,
                    ev.1 ∈ engine_tags ∧ (0 <= speed_of ev)%Q)
                 ([finding_server; pinging best] ++ download_events w))
    as Hdown by by apply Forall_app.
  destruct (Engine.download_outcome w) as [[]|e]; [|done].
  destruct (Engine.cancel_during w Engine.Download); [done|].
  assert (Forall (λ ev : Engine.event,
                    ev.1 ∈ engine_tags ∧ (0 <= speed_of ev)%Q)
                 (([finding_server; pinging best] ++ download_events w)
                  ++ upload_events w))
    as Hup by by apply Forall_app.
  destruct (Engine.upload_outcome w) as [[]|e]; [|done].
  destruct (Engine.cancel_during w Engine.Upload); [done|].
  split; [done|]. apply Forall_app. split; [done|].
  constructor; [|done]. apply Hplain. right. by left.
Qed.

Lemma known_tag_label (tag : string) :
  tag ∈ engine_tags →
  default (upper tag) (status_map !! tag) ∈ engine_labels.
Proof.
  unfold engine_tags, engine_labels. intros Htag.
  repeat (apply elem_of_cons in Htag as [->|Htag]; [set_solver|]).
  by apply elem_of_nil in Htag.
Qed.

(** X27: The engine and the dashboard fit together: after the events of any
    run whose byte counters are non-negative have been delivered to a
    fresh dashboard, the status is one of the five labels of
    [status_map] (the upper-case fallback is never used),
    [current_speed] is not negative, and the analyzer renders a text
    of exactly 50 glyphs. *)
Theorem run_events_on_dashboard (w : Engine.Workload) (now : datetime)
    (flag : bool) (file : option text) (rand : nat → nat) :
  counters_nonneg (Engine.download_reports w) →
  counters_nonneg (Engine.upload_reports w) →
  let events :=
    Engine.emitted (Engine._run_blocking w now (Engine.fresh flag)).2 in
  let d := foldl (λ d ev, callback ev d) (run_test_begin (init file)) events in
  status_text d ∈ engine_labels
  ∧ (0 <= current_speed d)%Q
  ∧ ∃ spark, Gauges.render rand (analyzer d) = Ok spark
      ∧ length spark = 50%nat.
Proof.
  intros Hdl Hul. cbn zeta.
  destruct (run_events_fit w now flag Hdl Hul) as [Hne Hfit].
  cbn zeta in Hne, Hfit.
  set (events := Engine.emitted _) in *. clearbody events.
  destruct (deliver_all events (run_test_begin (init file)))
    as (_ & _ & _ & Han).
  cbn zeta in Han. cbn [run_test_begin init analyzer] in Han.
  assert (Forall (λ v, 0 <= v)%Q (speed_of <$> events)) as Hspeeds.
  { apply Forall_fmap. eapply Forall_impl; [exact Hfit|]. by intros ev [_ ?]. }
  destruct (push_all_invariant (λ v, 0 <= v)%Q (speed_of <$> events)
              (Gauges.init 50)) as (Hcap & Hwithin & Hpos);
    [unfold within_capacity; cbn; lia | done..|].
  rewrite <- Han in Hcap, Hwithin, Hpos. cbn in Hcap.
  destruct events as [|ev0 rest _] using rev_ind; [done|]. clear Hne.
  apply Forall_app in Hfit as [_ Hlast].
  apply Forall_cons in Hlast as [[Htag Hspeed] _].
  rewrite foldl_snoc, callback_step in Hwithin, Hpos, Hcap |- *.
  cbn [status_text current_speed analyzer] in *.
  split; [by apply known_tag_label|]. split; [done|].
  set (b := Gauges.push _ _) in *.
  assert (Gauges.samples b ≠ []) as Hsamples.
  { unfold b. destruct (deliver_all rest (run_test_begin (init file)))
      as (_ & _ & _ & Hrest).
    cbn zeta in Hrest. rewrite Hrest.
    cbn [run_test_begin init analyzer].
    rewrite push_samples.
    - intros Hnil. apply (f_equal last) in Hnil.
      rewrite last_last_n in Hnil; [done|].
      destruct (push_all_invariant (λ _, True) (speed_of <$> rest)
                  (Gauges.init 50)) as (-> & _);
        [unfold within_capacity; cbn; lia | done | by apply Forall_true |].
      cbn. lia.
    - by destruct (push_all_invariant (λ _, True) (speed_of <$> rest)
                     (Gauges.init 50)) as (_ & ? & _);
        [unfold within_capacity; cbn; lia | | apply Forall_true |]. }
  destruct (render_samples rand b Hsamples Hpos) as (bars & _ & Hrender).
  eexists. split; [exact Hrender|].
  rewrite (render_Ok_length rand b _ Hwithin Hrender). done.
Qed.

End DeliveryFacts.

(** ** The further statements at concrete inputs *)

Section MoreInstances.
Import Examples MoreExamples.

Lemma workload_failure_propagates_witness :
  (@Engine._run_blocking concrete_runtime failing_download (timestamp_at 0)
     (Engine.fresh false)).1
  = Raise (WorkloadError "download failed").
Proof.
  apply (proj1 (proj2 (@workload_failure_propagates concrete_runtime
                         failing_download (timestamp_at 0) false
                         (WorkloadError "download failed")))).
  - by eexists.
  - reflexivity.
  - reflexivity.
Defined.

Lemma complete_run_trace_witness :
  Engine.emitted
    (@Engine._run_blocking concrete_runtime complete_run (timestamp_at 0)
       (Engine.fresh true)).2
  = full_trace best complete_run.
Proof.
  apply (@complete_run_trace concrete_runtime complete_run (timestamp_at 0)
           true best).
  - reflexivity.
  - reflexivity.
  - reflexivity.
  - intros st. reflexivity.
Defined.

Lemma quotient_kept_unless_fallback_witness :
  download_mbps
    (@Build_SpeedResult concrete_runtime
       (PNum 12) PNone (PNum (95000000 / 1000000))
       (PNum (22000000 / 1000000)) PNone PNone PNone (timestamp_at 0))
  = PNum (95000000 / 1000000).
Proof.
  assert (@Engine.build_result concrete_runtime figures [50; 80]%Q []
            (timestamp_at 0)
          = Ok (@Build_SpeedResult concrete_runtime
                  (PNum 12) PNone (PNum (95000000 / 1000000))
                  (PNum (22000000 / 1000000)) PNone PNone PNone
                  (timestamp_at 0))) as Hbuild by reflexivity.
  apply (proj1 (quotient_kept_unless_fallback _ _ _ _ _ Hbuild) 95000000%Q).
  - reflexivity.
  - reflexivity.
  - left. unfold Qlt; simpl; lia.
Defined.

Lemma run_speeds_nonneg_witness :
  ∃ r d u,
    (@Engine._run_blocking concrete_runtime complete_run (timestamp_at 0)
       (Engine.fresh false)).1 = Ok r
    ∧ download_mbps r = PNum d ∧ upload_mbps r = PNum u
    ∧ (0 <= d)%Q ∧ (0 <= u)%Q.
Proof.
  assert (∃ r, (@Engine._run_blocking concrete_runtime complete_run
                  (timestamp_at 0) (Engine.fresh false)).1 = Ok r)
    as [r Hr] by (eexists; reflexivity).
  destruct (@run_speeds_nonneg concrete_runtime complete_run (timestamp_at 0)
              false r Hr) as (d & u & Hd & Hu & Hdpos & Hupos).
  - repeat constructor; unfold Qle; simpl; lia.
  - repeat constructor; unfold Qle; simpl; lia.
  - intros x Hx. vm_compute in Hx. injection Hx as <-.
    unfold Qle; simpl; lia.
  - intros x Hx. vm_compute in Hx. injection Hx as <-.
    unfold Qle; simpl; lia.
  - exists r, d, u. repeat split; assumption.
Defined.

Lemma missing_download_figure_witness :
  ∃ m, Gauges.max [50; 80]%Q = Ok m
    ∧ download_mbps
        (@Build_SpeedResult concrete_runtime
           (PNum 0) PNone (PNum 80) (PNum (0 / 1000000)) PNone PNone PNone
           (timestamp_at 0))
      = PNum m.
Proof.
  apply (proj1 (@missing_download_figure concrete_runtime ∅ [50; 80]%Q []
                  (timestamp_at 0))).
  - reflexivity.
  - reflexivity.
  - discriminate.
Defined.

Lemma record_without_server_and_client_witness :
  ∃ r, @Engine.build_result concrete_runtime figures [] [] (timestamp_at 0)
       = Ok r
    ∧ server_name r = PNone ∧ isp r = PNone.
Proof.
  destruct (@record_without_server_and_client concrete_runtime figures [] []
              (timestamp_at 0) 95000000 22000000)
    as (r & Hr & Hserver & Hisp & _); try reflexivity.
  exists r. repeat split; assumption.
Defined.

Lemma from_dict_ignores_other_keys_witness :
  @from_dict concrete_runtime
    (<["comment" := PStr "wifi"]> (to_dict (result_at 3)))
  = from_dict (to_dict (result_at 3)).
Proof.
  apply (@from_dict_ignores_other_keys concrete_runtime).
  unfold field_names. intros Hin.
  repeat (apply elem_of_cons in Hin as [Hin|Hin]; [discriminate Hin|]).
  by apply elem_of_nil in Hin.
Defined.

Lemma load_history_trims_witness :
  @load_history concrete_runtime (Some long_history)
  = Ok (drop 5 fifteen_results).
Proof.
  apply (@load_history_trims concrete_runtime long_history fifteen_results).
  - reflexivity.
  - repeat constructor.
Defined.

Lemma save_result_replaces_malformed_file_witness :
  ∃ file,
    @save_result concrete_runtime (result_at 3) (Some (Garbage "[{")) = Ok file
    ∧ load_history file = Ok [result_at 3].
Proof.
  apply (@save_result_replaces_malformed_file concrete_runtime).
  - exact concrete_json_inverse.
  - reflexivity.
  - left. reflexivity.
Defined.

Lemma export_history_contents_witness :
  ∃ files' txt doc items,
    @HistoryFiles.export_history concrete_runtime "history.json"
      (timestamp_at 30) "export.json" some_files = Ok files'
    ∧ files' !! "export.json" = Some txt
    ∧ (∀ other, other ≠ "export.json" → files' !! other = some_files !! other)
    ∧ @json_loads concrete_runtime txt = Some (PDict doc)
    ∧ doc !! "exported_at"
      = Some (PStr (@isoformat concrete_runtime (timestamp_at 30)))
    ∧ doc !! "results" = Some (PList items)
    ∧ comprehension (@from_item concrete_runtime) items
      = Ok (drop 5 fifteen_results)
    ∧ (length items ≤ 10)%nat.
Proof.
  apply (@export_history_contents concrete_runtime).
  - exact concrete_json_inverse.
  - reflexivity.
  - repeat constructor.
Defined.

Lemma export_history_onto_history_file_witness :
  ∃ files',
    @HistoryFiles.export_history concrete_runtime "history.json"
      (timestamp_at 30) "history.json" some_files = Ok files'
    ∧ @load_history concrete_runtime (files' !! "history.json") = Ok [].
Proof.
  assert (∃ files',
            @HistoryFiles.export_history concrete_runtime "history.json"
              (timestamp_at 30) "history.json" some_files = Ok files')
    as [files' Hexport] by (eexists; reflexivity).
  exists files'. split; [exact Hexport|].
  apply (proj2 (@export_history_onto_history_file concrete_runtime
                  "history.json" (timestamp_at 30) "history.json"
                  some_files files' concrete_json_inverse Hexport)).
  reflexivity.
Defined.

Lemma render_bars_witness :
  ∃ m, Gauges.max_sample [0; 3; 6]%Q = Ok m
    ∧ Gauges.render (λ i, i)
        {| Gauges.capacity := 5; Gauges.samples := [0; 3; 6]%Q |}
      = Ok (replicate 2 Gauges.lowest ++ (bar_of m <$> [0; 3; 6]%Q)).
Proof.
  destruct (render_bars (λ i, i)
              {| Gauges.capacity := 5; Gauges.samples := [0; 3; 6]%Q |})
    as (m & Hm & Hrender & _).
  - discriminate.
  - repeat constructor; unfold Qle; simpl; lia.
  - exists m. split; assumption.
Defined.

Lemma normalize_monotone_witness :
  ∃ z1 z2, Gauges.normalize 6 3 = Ok z1 ∧ Gauges.normalize 6 6 = Ok z2
    ∧ 0 ≤ z1 ∧ z1 ≤ z2 ∧ z2 ≤ 7.
Proof.
  apply normalize_monotone.
  - unfold Qlt; simpl; lia.
  - unfold Qle; simpl; lia.
  - unfold Qle; simpl; lia.
Defined.

Lemma render_rejects_low_samples_witness :
  Gauges.render (λ i, i)
    {| Gauges.capacity := 5; Gauges.samples := [-2; 0]%Q |}
  = Raise IndexError.
Proof.
  apply (render_rejects_low_samples (λ i, i)
           {| Gauges.capacity := 5; Gauges.samples := [-2; 0]%Q |} 1 (-2)).
  - reflexivity.
  - by left.
  - unfold Qle; simpl; lia.
Defined.

Lemma needle_follows_speed_witness :
  Speedometer.needle_pos gauge 1500 = Ok 28.
Proof.
  assert (0 < Speedometer.max_speed gauge)%Q as Hlimit
    by (unfold Qlt; simpl; lia).
  apply (proj1 (proj2 (needle_follows_speed gauge 1500 1500 Hlimit))).
  unfold Qle; simpl; lia.
Defined.

Lemma render_dial_witness :
  ∃ col d,
    Speedometer.needle_pos gauge 600 = Ok (Z.of_nat col)
    ∧ (col ≤ 28)%nat
    ∧ Speedometer.render (λ _, "600.00 Mbps") gauge 600 "downloading" = Ok d.
Proof.
  destruct (render_dial (λ _, "600.00 Mbps") gauge 600 "downloading")
    as (col & d & Hpos & Hcol & Hrender & _).
  - intros Hzero. discriminate Hzero.
  - exists col, d. repeat split; assumption.
Defined.

Lemma summarize_quality_monotone_witness :
  ∃ grade grade',
    Quality.summarize_quality slow_result = Ok grade
    ∧ Quality.summarize_quality fast_result = Ok grade'
    ∧ (grade_rank grade ≤ grade_rank grade')%nat.
Proof.
  destruct (@summarize_quality_monotone concrete_runtime slow_result
              fast_result 60 12 45 650 120 18)
    as (grade & grade' & Hg & Hg' & _ & _ & Hrank);
    try reflexivity; try (unfold Qle; simpl; lia).
  exists grade, grade'. repeat split; assumption.
Defined.

Lemma dashboard_shows_last_event_witness :
  Dashboard.current_speed
    (foldl (λ d ev, Dashboard.callback ev d)
       (@Dashboard.init concrete_runtime None)
       ([finding_server; downloading 50] ++ [downloading 80]))
  = speed_of (downloading 80).
Proof.
  apply (@dashboard_shows_last_event concrete_runtime
           [finding_server; downloading 50] (downloading 80)
           (Dashboard.init None)).
  - unfold within_capacity. simpl. lia.
  - simpl. lia.
Defined.

Lemma run_test_saves_result_witness :
  ∃ d' : @Dashboard.Dashboard concrete_runtime,
    @Dashboard.run_test concrete_runtime six_events (Ok (result_at 20))
      (@Dashboard.init concrete_runtime (Some long_history)) = Ok d'
    ∧ Dashboard.status_text d' = "COMPLETE"
    ∧ Dashboard.running d' = false
    ∧ Dashboard.result d' = Some (result_at 20)
    ∧ @load_history concrete_runtime (Dashboard.history_file d')
      = Ok (drop (length (drop 5 fifteen_results ++ [result_at 20]) - 10)
              (drop 5 fifteen_results ++ [result_at 20])).
Proof.
  apply (@run_test_saves_result concrete_runtime).
  - exact concrete_json_inverse.
  - reflexivity.
  - repeat constructor.
  - reflexivity.
Defined.

Lemma run_events_on_dashboard_witness :
  ∃ spark,
    Gauges.render (λ i, i)
      (Dashboard.analyzer
         (foldl (λ d ev, Dashboard.callback ev d)
            (Dashboard.run_test_begin (@Dashboard.init concrete_runtime None))
            (Engine.emitted
               (@Engine._run_blocking concrete_runtime complete_run
                  (timestamp_at 0) (Engine.fresh false)).2)))
    = Ok spark
    ∧ length spark = 50%nat.
Proof.
  apply (@run_events_on_dashboard concrete_runtime complete_run
           (timestamp_at 0) false None (λ i, i)).
  - repeat constructor; unfold Qle; simpl; lia.
  - repeat constructor; unfold Qle; simpl; lia.
Defined.

Lemma needle_pos_in_range_witness :
  Speedometer.needle_pos flat_gauge 300 = Raise ZeroDivisionError.
Proof.
  apply (proj1 (needle_pos_in_range flat_gauge 300)). reflexivity.
Defined.

Lemma summarize_quality_absent_fields_witness :
  Quality.summarize_quality no_ping_result = Ok "ULTRA".
Proof.
  apply (proj1 (@summarize_quality_absent_fields concrete_runtime
                  no_ping_result) 650%Q 120%Q);
    try reflexivity; unfold Qle; simpl; lia.
Defined.

End MoreInstances.
